(** * shapely.geometry.geo: geometry factories based on the geo interface

    A shallow embedding of [src/shapely/geometry/geo.py]
    ([_is_coordinates_empty], [_empty_shape_for_no_coordinates], [box],
    [shape], [mapping]) and the properties its specification states.

    Python values are an inductive type of finite trees, exceptions are the
    [Err] side of a small error monad, and the module-level flag
    [_has_numpy] is a section variable: every statement holds whether or not
    numpy could be imported. *)

From Stdlib Require Import ZArith QArith String Ascii List Bool Lia.
Import ListNotations.
Local Open Scope string_scope.
Local Open Scope list_scope.
Set Warnings "-register-all".

(** ** Python values *)

(** The values a geo-interface mapping is made of.  A [str] is a sequence of
    code points below 256; a [dict] keeps its entries in insertion order under
    string keys, the first entry of a key being the one a lookup sees; a
    numpy array of one or more dimensions is the sequence of its items;
    [PyObject gi] is any object whose [__geo_interface__] attribute yields
    [gi]. *)
Inductive pyval : Type :=
| PyNone
| PyInt (z : Z)
| PyFloat (q : Q)
| PyStr (s : string)
| PyList (l : list pyval)
| PyTuple (l : list pyval)
| PyArray (l : list pyval)
| PyDict (d : list (string * pyval))
| PyObject (gi : pyval).

(** [type(v).__name__], as it appears in Python's error messages. *)
Definition type_name (v : pyval) : string :=
  match v with
  | PyNone => "NoneType"
  | PyInt _ => "int"
  | PyFloat _ => "float"
  | PyStr _ => "str"
  | PyList _ => "list"
  | PyTuple _ => "tuple"
  | PyArray _ => "numpy.ndarray"
  | PyDict _ => "dict"
  | PyObject _ => "object"
  end.

(** ** Exceptions and the error monad *)

Inductive exn : Type :=
| ValueError (msg : string)
| AttributeError (tyname attr : string)
| KeyError (key : pyval)
| IndexError
| TypeError.

Inductive result (A : Type) : Type :=
| Ok (a : A)
| Err (e : exn).
Arguments Ok {A} a.
Arguments Err {A} e.

Definition bind {A B : Type} (m : result A) (k : A -> result B) : result B :=
  match m with
  | Ok a => k a
  | Err e => Err e
  end.

Notation "x <- m ;; k" := (bind m (fun x => k))
  (at level 61, m at next level, right associativity).

(** A list comprehension [[f(g) for g in l]]: left to right, the first
    exception ends it. *)
Fixpoint mapM {A B : Type} (f : A -> result B) (l : list A) : result (list B) :=
  match l with
  | [] => Ok []
  | a :: l' => b <- f a ;; bs <- mapM f l' ;; Ok (b :: bs)
  end.

(** ** Strings *)

(** [str.lower] on one code point below 256: the upper-case letters are
    A-Z, U+00C0-U+00D6 and U+00D8-U+00DE, each 32 below its lower-case
    letter. *)
Definition lower_char (c : ascii) : ascii :=
  let n := N_of_ascii c in
  if ((65 <=? n) && (n <=? 90) || (192 <=? n) && (n <=? 222) && negb (n =? 215))%N
  then ascii_of_N (n + 32)
  else c.

Fixpoint lower (s : string) : string :=
  match s with
  | EmptyString => EmptyString
  | String c s' => String (lower_char c) (lower s')
  end.

(** The [%s] of ["Unknown geometry type: %s" % geom_type] for a [str]. *)
Definition unknown_geometry_type (geom_type : string) : string :=
  "Unknown geometry type: " ++ geom_type.

(** ** Dictionaries *)

Fixpoint dict_get (key : string) (d : list (string * pyval)) : option pyval :=
  match d with
  | [] => None
  | (k, v) :: d' => if String.eqb k key then Some v else dict_get key d'
  end.

(** [d.get(key, default)] *)
Definition dict_get_default (key : string) (default : pyval)
    (d : list (string * pyval)) : pyval :=
  match dict_get key d with
  | Some v => v
  | None => default
  end.

(** [key in d] *)
Definition dict_contains (key : string) (d : list (string * pyval)) : bool :=
  match dict_get key d with
  | Some _ => true
  | None => false
  end.

(** [d[key]] *)
Definition dict_getitem (key : string) (d : list (string * pyval)) : result pyval :=
  match dict_get key d with
  | Some v => Ok v
  | None => Err (KeyError (PyStr key))
  end.

(** [d[key] = v] *)
Fixpoint dict_set (key : string) (v : pyval) (d : list (string * pyval))
  : list (string * pyval) :=
  match d with
  | [] => [(key, v)]
  | (k, w) :: d' =>
      if String.eqb k key then (k, v) :: d' else (k, w) :: dict_set key v d'
  end.

(** [dict_get] with the found value handed to a continuation: the form under
    which a recursive function may descend into a value of the dictionary. *)
Section dict_get_with.

Context {A : Type} (found : pyval -> A) (missing : A) (key : string).

Fixpoint dict_get_with (d : list (string * pyval)) : A :=
  match d with
  | [] => missing
  | (k, v) :: d' => if String.eqb k key then found v else dict_get_with d'
  end.

End dict_get_with.

(** ** Subscripts *)

(** [v[0]] *)
Definition getitem0 (v : pyval) : result pyval :=
  match v with
  | PyList l | PyTuple l | PyArray l =>
      match l with
      | x :: _ => Ok x
      | [] => Err IndexError
      end
  | PyStr s =>
      match s with
      | String c _ => Ok (PyStr (String c EmptyString))
      | EmptyString => Err IndexError
      end
  | PyDict _ => Err (KeyError (PyInt 0))
  | PyNone | PyInt _ | PyFloat _ | PyObject _ => Err TypeError
  end.

(** [v[1:]] *)
Definition slice_from1 (v : pyval) : result pyval :=
  match v with
  | PyList l => Ok (PyList (tl l))
  | PyTuple l => Ok (PyTuple (tl l))
  | PyArray l => Ok (PyArray (tl l))
  | PyStr s =>
      Ok (PyStr match s with String _ s' => s' | EmptyString => EmptyString end)
  | PyDict _ | PyNone | PyInt _ | PyFloat _ | PyObject _ => Err TypeError
  end.

(** ** Arrays of dimension zero *)




(** ** The geometry classes *)

(** The classes [Point], [LineString], [Polygon], [MultiPoint],
    [MultiLineString], [MultiPolygon] and [GeometryCollection] come from
    sibling modules ([.point], [.linestring], ...) whose source is not at
    hand; what follows of them is taken from the specification, section by
    section.  The specification names no error for a constructor that
    refuses its argument: [TypeError] stands for it. *)

(** Modelled from the spec: a coordinate of the absent classes, a numeric
    tuple of 2 or 3 values (4.4) kept as floats (8), here rationals. *)
Definition coord : Type := list Q.

(** Modelled from the spec: the values of the absent classes, one of the seven
    kinds (3), each owning a copy of its coordinates; a polygon is an exterior
    ring and interior rings (4.4), a multipolygon a sequence of such, a
    collection a sequence of geometries (4.5). *)
Inductive geometry : Type :=
| GPoint (c : coord)
| GLineString (cs : list coord)
| GPolygon (shell : list coord) (holes : list (list coord))
| GMultiPoint (ps : list coord)
| GMultiLineString (ls : list (list coord))
| GMultiPolygon (polys : list (list coord * list (list coord)))
| GGeometryCollection (gs : list geometry).

(** Modelled from the spec: the kind name of a geometry of the absent classes,
    as its geo interface spells it (8: [{type:"Point", ...}], 4.5:
    ["GeometryCollection"]). *)
Definition geom_type (g : geometry) : string :=
  match g with
  | GPoint _ => "Point"
  | GLineString _ => "LineString"
  | GPolygon _ _ => "Polygon"
  | GMultiPoint _ => "MultiPoint"
  | GMultiLineString _ => "MultiLineString"
  | GMultiPolygon _ => "MultiPolygon"
  | GGeometryCollection _ => "GeometryCollection"
  end.

(** Modelled from the spec: the coordinate data a geometry of the absent
    classes carries (glossary, Empty geometry), flattened. *)
Fixpoint coords_of (g : geometry) : list coord :=
  match g with
  | GPoint c => match c with [] => [] | _ :: _ => [c] end
  | GLineString cs => cs
  | GPolygon shell holes => shell ++ concat holes
  | GMultiPoint ps => ps
  | GMultiLineString ls => concat ls
  | GMultiPolygon polys =>
      flat_map (fun p => fst p ++ concat (snd p)) polys
  | GGeometryCollection gs => flat_map coords_of gs
  end.

(** Modelled from the spec: the [is_empty] of the absent classes; an empty
    geometry carries zero coordinate data (glossary). *)
Definition is_empty (g : geometry) : bool :=
  match coords_of g with
  | [] => true
  | _ :: _ => false
  end.

(** Modelled from the spec: how the absent constructors read a number, copied
    as a float (8: [[0,1]] becomes [(0.0,1.0)]). *)
Definition as_float (v : pyval) : result Q :=
  match v with
  | PyInt z => Ok (inject_Z z)
  | PyFloat q => Ok q
  | _ => Err TypeError
  end.

(** Modelled from the spec: what the absent constructors take for a sequence
    (3: a nested sequence), a list, a tuple or an array. *)
Definition as_sequence (v : pyval) : result (list pyval) :=
  match v with
  | PyList l | PyTuple l | PyArray l => Ok l
  | _ => Err TypeError
  end.

(** Modelled from the spec: how the absent constructors read a coordinate, a
    single numeric tuple of 2 or 3 values (4.4). *)
Definition as_coord (v : pyval) : result coord :=
  l <- as_sequence v ;;
  c <- mapM as_float l ;;
  if ((length c =? 2) || (length c =? 3))%nat then Ok c else Err TypeError.

(** Modelled from the spec: how the absent constructors read a sequence of
    coordinate tuples (4.4, linestring and multipoint). *)
Definition as_coords (v : pyval) : result (list coord) :=
  l <- as_sequence v ;; mapM as_coord l.

(** Modelled from the spec: equality of two coordinates of the absent
    classes, value by value (8: coordinate equality). *)
Definition coord_eqb (a b : coord) : bool :=
  (length a =? length b)%nat
  && forallb (fun p => Qeq_bool (fst p) (snd p)) (combine a b).

(** Modelled from the spec: ring closure, the responsibility of the absent
    [Polygon] constructor (4.3): a ring whose last coordinate is not its
    first gets the first appended. *)
Definition close_ring (r : list coord) : list coord :=
  match r with
  | [] => []
  | c :: _ => if coord_eqb c (last r c) then r else r ++ [c]
  end.

(** Modelled from the spec: how the absent [Polygon] and [MultiPolygon]
    constructors read a ring (4.3, 4.4). *)
Definition as_ring (v : pyval) : result (list coord) :=
  r <- as_coords v ;; Ok (close_ring r).

(** Modelled from the spec: how the absent constructors read a sequence of
    parts (interior rings, lines), none of them empty: the empty instance of
    a kind is the canonical placeholder (glossary), the one without parts. *)
Definition as_parts {A : Type} (part : pyval -> result (list A)) (v : pyval)
  : result (list (list A)) :=
  l <- as_sequence v ;;
  mapM (fun x => p <- part x ;;
                 match p with [] => Err TypeError | _ :: _ => Ok p end) l.

(** Modelled from the spec: the absent class [Point], built from a single
    numeric tuple (4.4); [None] is the call without argument, which gives the
    empty instance (4.2). *)
Definition Point (coordinates : option pyval) : result geometry :=
  match coordinates with
  | None => Ok (GPoint [])
  | Some v => c <- as_coord v ;; Ok (GPoint c)
  end.

(** Modelled from the spec: the absent class [LineString], built from a
    sequence of coordinate tuples (4.4). *)
Definition LineString (coordinates : option pyval) : result geometry :=
  match coordinates with
  | None => Ok (GLineString [])
  | Some v => cs <- as_coords v ;; Ok (GLineString cs)
  end.

(** Modelled from the spec: the absent class [Polygon], whose constructor
    accepts separate exterior and interior ring arguments (6). *)
Definition Polygon (shell holes : option pyval) : result geometry :=
  s <- match shell with None => Ok [] | Some v => as_ring v end ;;
  h <- match holes with None => Ok [] | Some v => as_parts as_ring v end ;;
  Ok (GPolygon s h).

(** Modelled from the spec: the absent class [MultiPoint], built from a
    sequence of coordinate tuples (4.4). *)
Definition MultiPoint (points : option pyval) : result geometry :=
  match points with
  | None => Ok (GMultiPoint [])
  | Some v => ps <- as_coords v ;; Ok (GMultiPoint ps)
  end.

(** Modelled from the spec: the absent class [MultiLineString], built from a
    sequence of line-coordinate sequences (4.4). *)
Definition MultiLineString (lines : option pyval) : result geometry :=
  match lines with
  | None => Ok (GMultiLineString [])
  | Some v => ls <- as_parts as_coords v ;; Ok (GMultiLineString ls)
  end.

(** Modelled from the spec: how the absent [MultiPolygon] constructor reads
    one polygon in GeoJSON nesting, the exterior ring and then the interior
    rings (4.4); an empty polygon is no part. *)
Definition as_geojson_polygon (v : pyval)
  : result (list coord * list (list coord)) :=
  l <- as_sequence v ;;
  match l with
  | [] => Err TypeError
  | s :: h =>
      shell <- as_ring s ;;
      holes <- as_parts as_ring (PyList h) ;;
      match shell, holes with
      | [], [] => Err TypeError
      | _, _ => Ok (shell, holes)
      end
  end.

(** Modelled from the spec: the absent class [MultiPolygon] (4.4, 6).  Its
    argument, when there is one, comes with [context_type='geojson'], the one
    convention [shape] calls it with; other conventions are left out. *)
Definition MultiPolygon (polygons : option pyval) : result geometry :=
  match polygons with
  | None => Ok (GMultiPolygon [])
  | Some v =>
      l <- as_sequence v ;;
      ps <- mapM as_geojson_polygon l ;;
      Ok (GMultiPolygon ps)
  end.

(** Modelled from the spec: the absent class [GeometryCollection], built from
    the geometries [shape] made of its members (4.4). *)
Definition GeometryCollection (geoms : list geometry) : result geometry :=
  Ok (GGeometryCollection geoms).

(** Modelled from the spec: the tuple of floats the absent classes export for
    a coordinate (8: [coordinates:(0.0,1.0)]). *)
Definition coord_tuple (c : coord) : pyval := PyTuple (map PyFloat c).

(** Modelled from the spec: the tuple-tree the absent classes export for a
    sequence of coordinates (4.5). *)
Definition coords_tuple (cs : list coord) : pyval :=
  PyTuple (map coord_tuple cs).

(** Modelled from the spec: the tuple-tree the absent classes export for a
    polygon, whose first item is the exterior ring and whose other items are
    the interior rings (4.4). *)
Definition polygon_tuple (shell : list coord) (holes : list (list coord))
  : pyval :=
  PyTuple (coords_tuple shell :: map coords_tuple holes).

(** Modelled from the spec: the [__geo_interface__] of the absent classes
    (4.5): [{type: <kind>, coordinates: <tuple-tree>}] and, for a collection,
    [{type: "GeometryCollection", geometries: [...]}]. *)
Fixpoint geo_interface (g : geometry) : pyval :=
  match g with
  | GPoint c =>
      PyDict [("type", PyStr "Point"); ("coordinates", coord_tuple c)]
  | GLineString cs =>
      PyDict [("type", PyStr "LineString"); ("coordinates", coords_tuple cs)]
  | GPolygon shell holes =>
      PyDict [("type", PyStr "Polygon");
              ("coordinates", polygon_tuple shell holes)]
  | GMultiPoint ps =>
      PyDict [("type", PyStr "MultiPoint"); ("coordinates", coords_tuple ps)]
  | GMultiLineString ls =>
      PyDict [("type", PyStr "MultiLineString");
              ("coordinates", PyTuple (map coords_tuple ls))]
  | GMultiPolygon polys =>
      PyDict [("type", PyStr "MultiPolygon");
              ("coordinates",
               PyList (map (fun p => polygon_tuple (fst p) (snd p)) polys))]
  | GGeometryCollection gs =>
      PyDict [("type", PyStr "GeometryCollection");
              ("geometries", PyList (map geo_interface gs))]
  end.

(** Modelled from the spec: a geometry of the absent classes as a Python
    object; what it exposes is its geo interface (6). *)
Definition geometry_object (g : geometry) : pyval := PyObject (geo_interface g).

(** *** The geometries the classes construct

    Not every term of [geometry] is a value of the classes: the constructors
    above give coordinates of 2 or 3 values, closed rings, and parts that are
    not empty.  [well_formed] says so of a geometry; it holds of every
    geometry [shape] returns and of no other ([well_formed_iff_shape]). *)

Definition wf_coord (c : coord) : bool :=
  ((length c =? 2) || (length c =? 3))%nat.

Definition ring_closed (r : list coord) : bool :=
  match r with
  | [] => true
  | c :: _ => coord_eqb c (last r c)
  end.

Definition wf_ring (r : list coord) : bool :=
  forallb wf_coord r && ring_closed r.

Definition nonempty {A : Type} (l : list A) : bool :=
  match l with
  | [] => false
  | _ :: _ => true
  end.

Definition wf_holes (holes : list (list coord)) : bool :=
  forallb (fun h => wf_ring h && nonempty h) holes.

Definition wf_polygon (shell : list coord) (holes : list (list coord)) : bool :=
  wf_ring shell && wf_holes holes.

Fixpoint well_formed (g : geometry) : bool :=
  match g with
  | GPoint c => match c with [] => true | _ :: _ => wf_coord c end
  | GLineString cs => forallb wf_coord cs
  | GPolygon shell holes => wf_polygon shell holes
  | GMultiPoint ps => forallb wf_coord ps
  | GMultiLineString ls =>
      forallb (fun l => forallb wf_coord l && nonempty l) ls
  | GMultiPolygon polys =>
      forallb (fun p => wf_polygon (fst p) (snd p)
                        && (nonempty (fst p) || nonempty (snd p))) polys
  | GGeometryCollection gs => forallb well_formed gs
  end.

(** A geometry that is not empty and, if a collection, has no member that is
    empty, at any depth. *)
Fixpoint nowhere_empty (g : geometry) : bool :=
  negb (is_empty g)
  && match g with
     | GGeometryCollection gs => forallb nowhere_empty gs
     | _ => true
     end.

Section Geo.

(** [_has_numpy]: whether [import numpy] succeeded when the module loaded. *)
Variable _has_numpy : bool.

(** ** [_is_coordinates_empty] *)

Fixpoint _is_coordinates_empty (coordinates : pyval) : bool :=
  match coordinates with
  | PyNone => true
  | PyList l | PyTuple l =>
      match l with
      | [] => true
      | _ :: _ => forallb _is_coordinates_empty l
      end
  | PyArray l =>
      if _has_numpy then
        match l with
        | [] => true
        | _ :: _ => forallb _is_coordinates_empty l
        end
      else false
  | PyInt _ | PyFloat _ | PyStr _ | PyDict _ | PyObject _ => false
  end.


(** ** [_empty_shape_for_no_coordinates] *)

Definition _empty_shape_for_no_coordinates (geom_type : string)
  : result geometry :=
  if geom_type =? "point" then Point None
  else if geom_type =? "multipoint" then MultiPoint None
  else if geom_type =? "linestring" then LineString None
  else if geom_type =? "multilinestring" then MultiLineString None
  else if geom_type =? "polygon" then Polygon None None
  else if geom_type =? "multipolygon" then MultiPolygon None
  else Err (ValueError (unknown_geometry_type geom_type)).

(** ** [box] *)

(** [ccw] is [None] when the caller leaves it to its default, [True]. *)
Definition box (minx miny maxx maxy : pyval) (ccw : option bool)
  : result geometry :=
  let ccw := match ccw with Some b => b | None => true end in
  let coords :=
    [PyTuple [maxx; miny]; PyTuple [maxx; maxy];
     PyTuple [minx; maxy]; PyTuple [minx; miny]] in
  let coords := if negb ccw then rev coords else coords in
  Polygon (Some (PyList coords)) None.

(** ** [shape] *)

(** ['coordinates' in ob and _is_coordinates_empty(ob['coordinates'])] *)
Definition coordinates_given_empty (ob : list (string * pyval)) : bool :=
  dict_contains "coordinates" ob
  && match dict_get "coordinates" ob with
     | Some c => _is_coordinates_empty c
     | None => false
     end.

(** [[f(g) for g in v]].  Iterating a list, a tuple or an array gives its
    items; iterating a [str] gives its characters and iterating a [dict] its
    keys, each of them a [str], on which [f] is [on_str]; nothing else is
    iterable. *)
Definition for_each {B : Type} (f : pyval -> result B) (on_str : result B)
    (v : pyval) : result (list B) :=
  match v with
  | PyList l | PyTuple l | PyArray l => mapM f l
  | PyStr s => mapM (fun _ => on_str) (list_ascii_of_string s)
  | PyDict d => mapM (fun _ => on_str) d
  | PyNone | PyInt _ | PyFloat _ | PyObject _ => Err TypeError
  end.

(** [shape] of a [str]: it has no [__geo_interface__] and no [get]. *)
Definition shape_of_str : result geometry := Err (AttributeError "str" "get").

(** [context.__geo_interface__ if hasattr(context, "__geo_interface__")
    else context] *)
Definition geo_interface_or_self (context : pyval) : pyval :=
  match context with
  | PyObject gi => gi
  | _ => context
  end.

(** The [elif] chain of [shape] on the lower-cased type name, [shape] itself
    being the function applied to the members of a collection. *)
Definition shape_by_type (shape : pyval -> result geometry)
    (geom_type : string) (ob : list (string * pyval)) : result geometry :=
  if geom_type =? "point" then
    c <- dict_getitem "coordinates" ob ;; Point (Some c)
  else if geom_type =? "linestring" then
    c <- dict_getitem "coordinates" ob ;; LineString (Some c)
  else if geom_type =? "polygon" then
    c <- dict_getitem "coordinates" ob ;;
    shell <- getitem0 c ;;
    c' <- dict_getitem "coordinates" ob ;;
    holes <- slice_from1 c' ;;
    Polygon (Some shell) (Some holes)
  else if geom_type =? "multipoint" then
    c <- dict_getitem "coordinates" ob ;; MultiPoint (Some c)
  else if geom_type =? "multilinestring" then
    c <- dict_getitem "coordinates" ob ;; MultiLineString (Some c)
  else if geom_type =? "multipolygon" then
    c <- dict_getitem "coordinates" ob ;; MultiPolygon (Some c)
  else if geom_type =? "geometrycollection" then
    geoms <- dict_get_with (for_each shape shape_of_str) (Ok [])
               "geometries" ob ;;
    GeometryCollection geoms
  else Err (ValueError (unknown_geometry_type geom_type)).

Fixpoint shape (context : pyval) : result geometry :=
  let ob := geo_interface_or_self context in
  match ob with
  | PyDict d =>
      match dict_get_default "type" PyNone d with
      | PyStr s =>
          let geom_type := lower s in
          if coordinates_given_empty d then
            _empty_shape_for_no_coordinates geom_type
          else shape_by_type shape geom_type d
      | v => Err (AttributeError (type_name v) "lower")
      end
  | _ => Err (AttributeError (type_name ob) "get")
  end.

(** ** [mapping] *)

Definition mapping (ob : pyval) : result pyval :=
  match ob with
  | PyObject gi => Ok gi
  | _ => Err (AttributeError (type_name ob) "__geo_interface__")
  end.

(** ** Vocabulary of the statements *)

(** The six kind names whose geo interface has a [coordinates] member, and
    the seven kind names [shape] recognises. *)
Definition coordinate_kinds : list string :=
  ["point"; "linestring"; "polygon";
   "multipoint"; "multilinestring"; "multipolygon"].

Definition recognized_kinds : list string :=
  coordinate_kinds ++ ["geometrycollection"].

(** [s in msg] *)
Definition contains (msg s : string) : Prop :=
  exists pre post : string, msg = (pre ++ s ++ post)%string.

(** [list(v)]: the items an iteration over [v] yields. *)
Definition py_iter (v : pyval) : result (list pyval) :=
  match v with
  | PyList l | PyTuple l | PyArray l => Ok l
  | PyStr s =>
      Ok (map (fun c => PyStr (String c EmptyString)) (list_ascii_of_string s))
  | PyDict d => Ok (map (fun kv => PyStr (fst kv)) d)
  | PyNone | PyInt _ | PyFloat _ | PyObject _ => Err TypeError
  end.

(** What [_is_coordinates_empty] takes for a sequence: a list, a tuple, or an
    array where numpy is there. *)
Definition sequence_items (v : pyval) : option (list pyval) :=
  match v with
  | PyList l | PyTuple l => Some l
  | PyArray l => if _has_numpy then Some l else None
  | _ => None
  end.

Definition is_list_tuple_or_array (v : pyval) : bool :=
  match v with
  | PyList _ | PyTuple _ | PyArray _ => true
  | _ => false
  end.

(** The values found in [v] once every sequence [_is_coordinates_empty]
    goes into is opened: what is left is [None], numbers, strings, mappings,
    objects, and arrays where numpy is not there. *)
Fixpoint leaves (v : pyval) : list pyval :=
  match v with
  | PyList l | PyTuple l => flat_map leaves l
  | PyArray l => if _has_numpy then flat_map leaves l else [v]
  | _ => [v]
  end.

(** No numpy array occurs in [v], at any depth. *)
Fixpoint array_free (v : pyval) : bool :=
  match v with
  | PyList l | PyTuple l => forallb array_free l
  | PyArray _ => false
  | PyDict d => forallb (fun kv => array_free (snd kv)) d
  | PyObject gi => array_free gi
  | PyNone | PyInt _ | PyFloat _ | PyStr _ => true
  end.



(** A number that [float] reads without rounding and without overflow: a
    float, or an int of magnitude at most 2^53. *)
Definition exact_float (v : pyval) : option Q :=
  match v with
  | PyFloat q => Some q
  | PyInt z => if (Z.abs z <=? 2 ^ 53)%Z then Some (inject_Z z) else None
  | _ => None
  end.

(** ** Basic facts *)

Lemma dict_get_with_spec {A : Type} (found : pyval -> A) (missing : A)
    (key : string) (d : list (string * pyval)) :
  dict_get_with found missing key d
  = match dict_get key d with
    | Some v => found v
    | None => missing
    end.
Proof.
  induction d as [|[k v] d IH]; simpl; [reflexivity|].
  destruct (k =? key); [reflexivity | exact IH].
Qed.

Lemma dict_get_set_same (key : string) (v : pyval) (d : list (string * pyval)) :
  dict_get key (dict_set key v d) = Some v.
Proof.
  induction d as [|[k w] d IH]; simpl.
  - now rewrite String.eqb_refl.
  - destruct (k =? key) eqn:E; simpl; rewrite E; [reflexivity | exact IH].
Qed.

Lemma dict_get_set_other (key k : string) (v : pyval)
    (d : list (string * pyval)) :
  key <> k -> dict_get k (dict_set key v d) = dict_get k d.
Proof.
  intros Hne. induction d as [|[k' w] d IH]; simpl.
  - destruct (String.eqb_spec key k); [contradiction | reflexivity].
  - destruct (String.eqb_spec k' key) as [->|Hk]; simpl.
    + destruct (String.eqb_spec key k); [contradiction | reflexivity].
    + destruct (k' =? k); [reflexivity | exact IH].
Qed.

Lemma mapM_map {A B C : Type} (f : B -> result C) (g : A -> B) (l : list A) :
  mapM f (map g l) = mapM (fun a => f (g a)) l.
Proof.
  induction l as [|a l IH]; simpl; [reflexivity|]. now rewrite IH.
Qed.

Lemma contains_suffix (pre s : string) : contains (pre ++ s)%string s.
Proof.
  exists pre, EmptyString.
  assert (E : forall t : string, (t ++ EmptyString)%string = t)
    by (induction t as [|c t IH]; simpl; [reflexivity | now rewrite IH]).
  now rewrite E.
Qed.

(** The six names [_empty_shape_for_no_coordinates] compares with are in
    lower case, and it knows no other name. *)
Lemma coordinate_kinds_lower (k : string) :
  In k coordinate_kinds -> lower k = k.
Proof.
  unfold coordinate_kinds. simpl.
  intros [<-|[<-|[<-|[<-|[<-|[<-|[]]]]]]]; reflexivity.
Qed.

Lemma empty_shape_unknown (geom_type : string) :
  ~ In geom_type coordinate_kinds ->
  _empty_shape_for_no_coordinates geom_type
  = Err (ValueError (unknown_geometry_type geom_type)).
Proof.
  intros H. unfold _empty_shape_for_no_coordinates.
  repeat match goal with
  | |- context [?a =? ?b] =>
      destruct (String.eqb_spec a b) as [->|_];
      [exfalso; apply H; unfold coordinate_kinds; simpl; tauto|]
  end.
  reflexivity.
Qed.

Lemma shape_by_type_unknown (rec : pyval -> result geometry)
    (geom_type : string) (ob : list (string * pyval)) :
  ~ In geom_type recognized_kinds ->
  shape_by_type rec geom_type ob
  = Err (ValueError (unknown_geometry_type geom_type)).
Proof.
  intros H. unfold shape_by_type.
  repeat match goal with
  | |- context [?a =? ?b] =>
      destruct (String.eqb_spec a b) as [->|_];
      [exfalso; apply H; unfold recognized_kinds, coordinate_kinds; simpl; tauto|]
  end.
  reflexivity.
Qed.

(** [shape] on a mapping whose [type] is a [str], and on an object that
    exposes such a mapping. *)
Lemma shape_dict (d : list (string * pyval)) (s : string) :
  dict_get "type" d = Some (PyStr s) ->
  shape (PyDict d)
  = if coordinates_given_empty d
    then _empty_shape_for_no_coordinates (lower s)
    else shape_by_type shape (lower s) d.
Proof.
  intros H. simpl. unfold dict_get_default. now rewrite H.
Qed.

Lemma shape_object_dict (d : list (string * pyval)) :
  shape (PyObject (PyDict d)) = shape (PyDict d).
Proof. reflexivity. Qed.

Lemma shape_str (s : string) : shape (PyStr s) = shape_of_str.
Proof. reflexivity. Qed.

Lemma for_each_shape (v : pyval) :
  for_each shape shape_of_str v = (items <- py_iter v ;; mapM shape items).
Proof.
  destruct v; simpl; try reflexivity.
  - now rewrite mapM_map.
  - now rewrite mapM_map.
Qed.

Lemma coordinates_given_empty_spec (d : list (string * pyval)) :
  coordinates_given_empty d
  = match dict_get "coordinates" d with
    | Some c => _is_coordinates_empty c
    | None => false
    end.
Proof.
  unfold coordinates_given_empty, dict_contains.
  now destruct (dict_get "coordinates" d).
Qed.

Lemma shape_by_type_ext (rec : pyval -> result geometry) (geom_type : string)
    (d1 d2 : list (string * pyval)) :
  dict_get "coordinates" d1 = dict_get "coordinates" d2 ->
  dict_get "geometries" d1 = dict_get "geometries" d2 ->
  shape_by_type rec geom_type d1 = shape_by_type rec geom_type d2.
Proof.
  intros Hc Hg. unfold shape_by_type, dict_getitem.
  rewrite !dict_get_with_spec, Hc, Hg. reflexivity.
Qed.

Lemma shape_ext (d1 d2 : list (string * pyval)) (s1 s2 : string) :
  dict_get "type" d1 = Some (PyStr s1) ->
  dict_get "type" d2 = Some (PyStr s2) ->
  lower s1 = lower s2 ->
  dict_get "coordinates" d1 = dict_get "coordinates" d2 ->
  dict_get "geometries" d1 = dict_get "geometries" d2 ->
  shape (PyDict d1) = shape (PyDict d2).
Proof.
  intros H1 H2 Hl Hc Hg.
  rewrite (shape_dict d1 s1 H1), (shape_dict d2 s2 H2).
  rewrite !coordinates_given_empty_spec, Hc, Hl.
  now rewrite (shape_by_type_ext shape (lower s2) d1 d2 Hc Hg).
Qed.

(** ** The geometries [shape] returns are well formed *)

Ltac bind_inv H :=
  repeat match type of H with
  | bind ?m _ = Ok _ =>
      let E := fresh "E" in
      destruct m eqn:E; [cbn [bind] in H | discriminate H]
  end.

(** Induction on a value, with the items of a sequence and the values of a
    dictionary. *)
Lemma pyval_induction (P : pyval -> Prop) :
  P PyNone ->
  (forall z, P (PyInt z)) ->
  (forall q, P (PyFloat q)) ->
  (forall s, P (PyStr s)) ->
  (forall l, Forall P l -> P (PyList l)) ->
  (forall l, Forall P l -> P (PyTuple l)) ->
  (forall l, Forall P l -> P (PyArray l)) ->
  (forall d, Forall (fun kv => P (snd kv)) d -> P (PyDict d)) ->
  (forall gi, P gi -> P (PyObject gi)) ->
  forall v, P v.
Proof.
  intros Hn Hi Hf Hs Hl Ht Ha Hd Ho.
  fix IH 1.
  assert (IHl : forall l : list pyval, Forall P l).
  { induction l as [|x l IHl]; constructor; [apply IH | exact IHl]. }
  intros [|z|q|s|l|l|l|d|gi];
    [apply Hn | apply Hi | apply Hf | apply Hs | apply Hl, IHl
    | apply Ht, IHl | apply Ha, IHl | | apply Ho, IH].
  apply Hd. induction d as [|[k x] d IHd]; constructor; [apply IH | exact IHd].
Qed.

Lemma mapM_forallb {A B : Type} (f : A -> result B) (ok : B -> bool)
    (l : list A) :
  Forall (fun a => forall b, f a = Ok b -> ok b = true) l ->
  forall bs, mapM f l = Ok bs -> forallb ok bs = true.
Proof.
  induction 1 as [|a l Ha _ IH]; simpl; intros bs H.
  - now injection H as <-.
  - bind_inv H. injection H as <-. simpl.
    now rewrite (Ha _ eq_refl), (IH _ eq_refl).
Qed.

Lemma Forall_all {A : Type} (P : A -> Prop) (l : list A) :
  (forall a, P a) -> Forall P l.
Proof. intros H. induction l; constructor; auto. Qed.

Lemma as_coord_wf (v : pyval) (c : coord) :
  as_coord v = Ok c -> wf_coord c = true.
Proof.
  unfold as_coord. intros H. bind_inv H. unfold wf_coord.
  destruct ((length a0 =? 2)%nat || (length a0 =? 3)%nat) eqn:El;
    [|discriminate]. now injection H as <-.
Qed.

Lemma as_coords_wf (v : pyval) (cs : list coord) :
  as_coords v = Ok cs -> forallb wf_coord cs = true.
Proof.
  unfold as_coords. intros H. bind_inv H.
  apply (mapM_forallb as_coord wf_coord a); [|exact H].
  apply Forall_all. exact as_coord_wf.
Qed.

Lemma coord_eqb_refl (c : coord) : coord_eqb c c = true.
Proof.
  unfold coord_eqb. rewrite Nat.eqb_refl. simpl.
  induction c as [|q c IH]; simpl; [reflexivity|].
  rewrite IH, andb_true_r. apply Qeq_bool_iff. reflexivity.
Qed.

Lemma close_ring_wf (r : list coord) :
  forallb wf_coord r = true -> wf_ring (close_ring r) = true.
Proof.
  intros H. unfold wf_ring, close_ring.
  destruct r as [|c r]; [reflexivity|].
  destruct (coord_eqb c (last (c :: r) c)) eqn:E.
  - rewrite H. unfold ring_closed. now rewrite E.
  - rewrite forallb_app, H. cbn [forallb] in *.
    apply andb_prop in H as [Hc _]. rewrite Hc.
    unfold ring_closed. cbn [app].
    change (c :: r ++ [c]) with ((c :: r) ++ [c]).
    rewrite last_last. now rewrite coord_eqb_refl.
Qed.

Lemma as_ring_wf (v : pyval) (r : list coord) :
  as_ring v = Ok r -> wf_ring r = true.
Proof.
  unfold as_ring. intros H. bind_inv H. injection H as <-.
  apply close_ring_wf. now apply (as_coords_wf v).
Qed.

Lemma as_parts_wf {A : Type} (part : pyval -> result (list A))
    (ok : list A -> bool) (v : pyval) (ps : list (list A)) :
  (forall x p, part x = Ok p -> ok p = true) ->
  as_parts part v = Ok ps ->
  forallb (fun p => ok p && nonempty p) ps = true.
Proof.
  intros Hok H. unfold as_parts in H. bind_inv H.
  refine (mapM_forallb _ _ a _ ps H).
  apply Forall_all. intros x p Hp. bind_inv Hp.
  destruct a0; [discriminate|]. injection Hp as <-.
  now rewrite (Hok x _ E0).
Qed.

Lemma as_geojson_polygon_wf (v : pyval) (p : list coord * list (list coord)) :
  as_geojson_polygon v = Ok p ->
  wf_polygon (fst p) (snd p) && (nonempty (fst p) || nonempty (snd p)) = true.
Proof.
  unfold as_geojson_polygon. intros H. bind_inv H.
  destruct a as [|s h]; [discriminate|]. bind_inv H.
  unfold wf_polygon, wf_holes.
  assert (Hs := as_ring_wf _ _ E0).
  assert (Hh := as_parts_wf as_ring wf_ring _ _ as_ring_wf E1).
  destruct a as [|c shell]; [destruct a0 as [|h0 holes]|];
    try discriminate; injection H as <-; cbn [fst snd];
    now rewrite Hs, Hh.
Qed.

Lemma Point_wf (a : option pyval) (g : geometry) :
  Point a = Ok g -> well_formed g = true.
Proof.
  destruct a as [v|]; simpl; intros H.
  - bind_inv H. injection H as <-. simpl.
    assert (Hc := as_coord_wf _ _ E). now destruct a.
  - now injection H as <-.
Qed.

Lemma LineString_wf (a : option pyval) (g : geometry) :
  LineString a = Ok g -> well_formed g = true.
Proof.
  destruct a as [v|]; simpl; intros H.
  - bind_inv H. injection H as <-. now apply (as_coords_wf v).
  - now injection H as <-.
Qed.

Lemma MultiPoint_wf (a : option pyval) (g : geometry) :
  MultiPoint a = Ok g -> well_formed g = true.
Proof.
  destruct a as [v|]; simpl; intros H.
  - bind_inv H. injection H as <-. now apply (as_coords_wf v).
  - now injection H as <-.
Qed.

Lemma Polygon_wf (shell holes : option pyval) (g : geometry) :
  Polygon shell holes = Ok g -> well_formed g = true.
Proof.
  unfold Polygon. intros H. bind_inv H. injection H as <-.
  simpl. unfold wf_polygon, wf_holes.
  assert (Hs : wf_ring a = true).
  { destruct shell as [v|]; [now apply (as_ring_wf v)|].
    now injection E as <-. }
  assert (Hh : forallb (fun h => wf_ring h && nonempty h) a0 = true).
  { destruct holes as [v|];
      [now apply (as_parts_wf as_ring wf_ring v _ as_ring_wf)|].
    now injection E0 as <-. }
  now rewrite Hs, Hh.
Qed.

Lemma MultiLineString_wf (a : option pyval) (g : geometry) :
  MultiLineString a = Ok g -> well_formed g = true.
Proof.
  destruct a as [v|]; simpl; intros H.
  - bind_inv H. injection H as <-.
    now apply (as_parts_wf as_coords (forallb wf_coord) v _ as_coords_wf).
  - now injection H as <-.
Qed.

Lemma MultiPolygon_wf (a : option pyval) (g : geometry) :
  MultiPolygon a = Ok g -> well_formed g = true.
Proof.
  destruct a as [v|]; simpl; intros H.
  - bind_inv H. injection H as <-. simpl.
    refine (mapM_forallb as_geojson_polygon _ a _ a0 E0).
    apply Forall_all. exact as_geojson_polygon_wf.
  - now injection H as <-.
Qed.

Lemma empty_shape_wf (geom_type : string) (g : geometry) :
  _empty_shape_for_no_coordinates geom_type = Ok g -> well_formed g = true.
Proof.
  unfold _empty_shape_for_no_coordinates.
  repeat match goal with
  | |- context [?a =? ?b] => destruct (a =? b)
  end; intros H; try discriminate H;
    eauto using Point_wf, LineString_wf, Polygon_wf, MultiPoint_wf,
      MultiLineString_wf, MultiPolygon_wf.
Qed.

Lemma dict_get_In (key : string) (d : list (string * pyval)) (v : pyval) :
  dict_get key d = Some v -> exists k, In (k, v) d.
Proof.
  induction d as [|[k w] d IH]; simpl; [discriminate|].
  destruct (k =? key).
  - intros H. injection H as <-. exists k. now left.
  - intros H. destruct (IH H) as [k' Hk']. exists k'. now right.
Qed.

(** [shape] as one equation, the way the source reads. *)
Lemma shape_unfold (context : pyval) :
  shape context
  = match geo_interface_or_self context with
    | PyDict d =>
        match dict_get_default "type" PyNone d with
        | PyStr s =>
            if coordinates_given_empty d
            then _empty_shape_for_no_coordinates (lower s)
            else shape_by_type shape (lower s) d
        | v => Err (AttributeError (type_name v) "lower")
        end
    | ob => Err (AttributeError (type_name ob) "get")
    end.
Proof.
  destruct context as [| | | | | | | |gi]; try reflexivity.
  destruct gi; reflexivity.
Qed.

Lemma shape_by_type_wf (geom_type : string) (d : list (string * pyval))
    (g : geometry) :
  (forall v geoms, dict_get "geometries" d = Some v ->
     for_each shape shape_of_str v = Ok geoms ->
     forallb well_formed geoms = true) ->
  shape_by_type shape geom_type d = Ok g -> well_formed g = true.
Proof.
  intros Hmembers. unfold shape_by_type.
  repeat match goal with
  | |- context [?a =? ?b] => destruct (a =? b)
  end; intros H; try discriminate H; bind_inv H;
    eauto using Point_wf, LineString_wf, Polygon_wf, MultiPoint_wf,
      MultiLineString_wf, MultiPolygon_wf.
  injection H as <-. simpl.
  rewrite dict_get_with_spec in E.
  destruct (dict_get "geometries" d) as [v|] eqn:Eg.
  - now apply (Hmembers v).
  - now injection E as <-.
Qed.

Lemma shape_wf_members (v : pyval) :
  (forall g, shape v = Ok g -> well_formed g = true)
  /\ (forall geoms, for_each shape shape_of_str v = Ok geoms ->
        forallb well_formed geoms = true).
Proof.
  assert (Hitems : forall l : list pyval,
            Forall (fun x => (forall g, shape x = Ok g -> well_formed g = true)
                     /\ (forall geoms,
                            for_each shape shape_of_str x = Ok geoms ->
                            forallb well_formed geoms = true)) l ->
            forall geoms, mapM shape l = Ok geoms ->
            forallb well_formed geoms = true).
  { intros l Hl. apply mapM_forallb.
    eapply Forall_impl; [|exact Hl]. intros x [Hx _]. exact Hx. }
  assert (Hstr : forall (A : Type) (l : list A) geoms,
            mapM (fun _ => shape_of_str) l = Ok geoms ->
            forallb well_formed geoms = true).
  { intros A l. apply mapM_forallb, Forall_all. discriminate. }
  assert (Hdict : forall d : list (string * pyval),
            Forall (fun kv =>
                      (forall g, shape (snd kv) = Ok g -> well_formed g = true)
                      /\ (forall geoms,
                            for_each shape shape_of_str (snd kv) = Ok geoms ->
                            forallb well_formed geoms = true)) d ->
            forall g, shape (PyDict d) = Ok g -> well_formed g = true).
  { intros d Hd g H. rewrite shape_unfold in H. cbn [geo_interface_or_self] in H.
    destruct (dict_get_default "type" PyNone d); try discriminate H.
    destruct (coordinates_given_empty d).
    - now apply (empty_shape_wf (lower s)).
    - apply (shape_by_type_wf (lower s) d); [|exact H].
      intros w geoms Hw. apply dict_get_In in Hw as [k Hk].
      rewrite Forall_forall in Hd. exact (proj2 (Hd _ Hk) geoms). }
  induction v as [| | | |l IH|l IH|l IH|d IH|gi IH] using pyval_induction;
    (split; [intros g H | intros geoms H]);
    try discriminate H; eauto.
  rewrite shape_unfold in H. cbn [geo_interface_or_self] in H.
  destruct gi; try discriminate H.
  apply (proj1 IH). rewrite shape_unfold. exact H.
Qed.

(** Every geometry [shape] returns is one the classes construct. *)
Lemma shape_well_formed (context : pyval) (g : geometry) :
  shape context = Ok g -> well_formed g = true.
Proof. apply shape_wf_members. Qed.

(** ** Reading a geo interface back *)

(** Induction on a geometry, with the members of a collection. *)
Lemma geometry_induction (P : geometry -> Prop) :
  (forall c, P (GPoint c)) ->
  (forall cs, P (GLineString cs)) ->
  (forall shell holes, P (GPolygon shell holes)) ->
  (forall ps, P (GMultiPoint ps)) ->
  (forall ls, P (GMultiLineString ls)) ->
  (forall polys, P (GMultiPolygon polys)) ->
  (forall gs, Forall P gs -> P (GGeometryCollection gs)) ->
  forall g, P g.
Proof.
  intros Hp Hl Hpo Hmp Hml Hmpo Hc.
  fix IH 1.
  intros [c|cs|shell holes|ps|ls|polys|gs];
    [apply Hp | apply Hl | apply Hpo | apply Hmp | apply Hml | apply Hmpo |].
  apply Hc. induction gs as [|g gs IHgs]; constructor; [apply IH | exact IHgs].
Qed.

Lemma mapM_inverse {A B : Type} (f : B -> result A) (g : A -> B)
    (ok : A -> bool) (l : list A) :
  (forall a, ok a = true -> f (g a) = Ok a) ->
  forallb ok l = true ->
  mapM f (map g l) = Ok l.
Proof.
  intros H. induction l as [|a l IH]; simpl; [reflexivity|].
  intros Hl. apply andb_prop in Hl as [Ha Hl].
  now rewrite (H a Ha), (IH Hl).
Qed.

Lemma as_coord_tuple (c : coord) :
  wf_coord c = true -> as_coord (coord_tuple c) = Ok c.
Proof.
  intros H. unfold as_coord, coord_tuple. simpl.
  rewrite (mapM_inverse as_float PyFloat (fun _ => true)); simpl.
  - unfold wf_coord in H. now rewrite H.
  - intros a _. reflexivity.
  - clear H. now induction c as [|q c IH].
Qed.

Lemma as_coords_tuple (cs : list coord) :
  forallb wf_coord cs = true -> as_coords (coords_tuple cs) = Ok cs.
Proof.
  intros H. unfold as_coords, coords_tuple. simpl.
  apply (mapM_inverse as_coord coord_tuple wf_coord); [|exact H].
  exact as_coord_tuple.
Qed.

Lemma close_ring_closed (r : list coord) :
  ring_closed r = true -> close_ring r = r.
Proof.
  destruct r as [|c r]; [reflexivity|].
  unfold ring_closed, close_ring. now intros ->.
Qed.

Lemma as_ring_tuple (r : list coord) :
  wf_ring r = true -> as_ring (coords_tuple r) = Ok r.
Proof.
  unfold wf_ring. intros H. apply andb_prop in H as [Hc Hr].
  unfold as_ring. rewrite (as_coords_tuple r Hc). simpl.
  now rewrite (close_ring_closed r Hr).
Qed.

Lemma as_parts_tuples {A : Type} (part : pyval -> result (list A))
    (tuple : list A -> pyval) (ok : list A -> bool) (l : list (list A)) :
  (forall p, ok p = true -> part (tuple p) = Ok p) ->
  forallb (fun p => ok p && nonempty p) l = true ->
  mapM (fun x => p <- part x ;;
                 match p with [] => Err TypeError | _ :: _ => Ok p end)
    (map tuple l) = Ok l.
Proof.
  intros H.
  apply (mapM_inverse _ tuple (fun p => ok p && nonempty p)).
  intros p Hp. apply andb_prop in Hp as [Hok Hne].
  rewrite (H p Hok). simpl. now destruct p.
Qed.

Lemma as_holes_tuples (holes : list (list coord)) :
  wf_holes holes = true ->
  mapM (fun x => p <- as_ring x ;;
                 match p with [] => Err TypeError | _ :: _ => Ok p end)
    (map coords_tuple holes) = Ok holes.
Proof. apply (as_parts_tuples as_ring coords_tuple wf_ring), as_ring_tuple. Qed.

Lemma as_geojson_polygon_tuple (p : list coord * list (list coord)) :
  wf_polygon (fst p) (snd p) && (nonempty (fst p) || nonempty (snd p)) = true ->
  as_geojson_polygon (polygon_tuple (fst p) (snd p)) = Ok p.
Proof.
  destruct p as [shell holes]. simpl. intros H.
  apply andb_prop in H as [Hwf Hne].
  unfold wf_polygon in Hwf. apply andb_prop in Hwf as [Hs Hh].
  unfold as_geojson_polygon, polygon_tuple, as_parts. simpl.
  rewrite (as_ring_tuple shell Hs). simpl.
  rewrite (as_holes_tuples holes Hh). simpl.
  destruct shell; [destruct holes; [discriminate|]|]; reflexivity.
Qed.

(** Which of the tuple trees of a geo interface [_is_coordinates_empty]
    takes for empty. *)
Lemma coord_tuple_empty (c : coord) :
  _is_coordinates_empty (coord_tuple c) = negb (nonempty c).
Proof. now destruct c. Qed.

Lemma tuple_of_parts_empty {A : Type} (tuple : A -> pyval) (l : list A) :
  (forall a, In a l -> _is_coordinates_empty (tuple a) = false) ->
  _is_coordinates_empty (PyTuple (map tuple l)) = negb (nonempty l)
  /\ _is_coordinates_empty (PyList (map tuple l)) = negb (nonempty l).
Proof.
  destruct l as [|a l]; [now split|].
  intros H. simpl. now rewrite (H a (or_introl eq_refl)).
Qed.

Lemma wf_coord_nonempty (c : coord) : wf_coord c = true -> nonempty c = true.
Proof. now destruct c. Qed.

Lemma coords_tuple_empty (cs : list coord) :
  forallb wf_coord cs = true ->
  _is_coordinates_empty (coords_tuple cs) = negb (nonempty cs).
Proof.
  intros H. apply tuple_of_parts_empty. intros c Hc.
  rewrite forallb_forall in H.
  now rewrite coord_tuple_empty, (wf_coord_nonempty c (H c Hc)).
Qed.

Lemma part_tuple_not_empty (l : list coord) :
  forallb wf_coord l && nonempty l = true ->
  _is_coordinates_empty (coords_tuple l) = false.
Proof.
  intros H. apply andb_prop in H as [Hc Hn].
  now rewrite (coords_tuple_empty l Hc), Hn.
Qed.

Lemma hole_tuple_not_empty (h : list coord) :
  wf_ring h && nonempty h = true ->
  _is_coordinates_empty (coords_tuple h) = false.
Proof.
  unfold wf_ring. intros H. apply part_tuple_not_empty.
  apply andb_prop in H as [H Hn]. apply andb_prop in H as [Hc _].
  now rewrite Hc, Hn.
Qed.

Lemma polygon_tuple_empty (shell : list coord) (holes : list (list coord)) :
  wf_polygon shell holes = true ->
  _is_coordinates_empty (polygon_tuple shell holes)
  = negb (nonempty shell || nonempty holes).
Proof.
  unfold wf_polygon, wf_ring, wf_holes. intros H.
  apply andb_prop in H as [Hs Hh]. apply andb_prop in Hs as [Hs _].
  unfold polygon_tuple.
  change (_is_coordinates_empty
            (PyTuple (coords_tuple shell :: map coords_tuple holes)))
    with (_is_coordinates_empty (coords_tuple shell)
          && forallb _is_coordinates_empty (map coords_tuple holes)).
  rewrite (coords_tuple_empty shell Hs).
  destruct holes as [|h holes]; cbn [map forallb nonempty];
    [now destruct shell|].
  cbn [forallb] in Hh. apply andb_prop in Hh as [Hh _].
  rewrite (hole_tuple_not_empty h Hh). now destruct shell.
Qed.

Lemma shape_interface_dict (kind : string) (rest : list (string * pyval)) :
  shape (PyDict (("type", PyStr kind) :: rest))
  = match dict_get "coordinates" rest with
    | Some c =>
        if _is_coordinates_empty c
        then _empty_shape_for_no_coordinates (lower kind)
        else shape_by_type shape (lower kind) rest
    | None => shape_by_type shape (lower kind) rest
    end.
Proof.
  rewrite (shape_dict (("type", PyStr kind) :: rest) kind eq_refl).
  rewrite coordinates_given_empty_spec.
  change (dict_get "coordinates" (("type", PyStr kind) :: rest))
    with (dict_get "coordinates" rest).
  rewrite (shape_by_type_ext shape (lower kind)
             (("type", PyStr kind) :: rest) rest eq_refl eq_refl).
  destruct (dict_get "coordinates" rest) as [c|]; reflexivity.
Qed.

(** [shape] reads the geo interface of a geometry back into that geometry. *)
Lemma shape_geo_interface (g : geometry) :
  well_formed g = true -> shape (geo_interface g) = Ok g.
Proof.
  induction g as [c|cs|shell holes|ps|ls|polys|gs IH] using geometry_induction;
    intros Hwf; simpl in Hwf.
  - cbn [geo_interface]. rewrite shape_interface_dict.
    cbn [dict_get String.eqb Ascii.eqb Bool.eqb]. rewrite coord_tuple_empty.
    destruct c as [|q c]; [reflexivity|].
    change (Point (Some (coord_tuple (q :: c))) = Ok (GPoint (q :: c))).
    unfold Point. now rewrite (as_coord_tuple _ Hwf).
  - cbn [geo_interface]. rewrite shape_interface_dict.
    cbn [dict_get String.eqb Ascii.eqb Bool.eqb].
    rewrite (coords_tuple_empty cs Hwf).
    destruct cs as [|c cs]; [reflexivity|].
    change (LineString (Some (coords_tuple (c :: cs)))
            = Ok (GLineString (c :: cs))).
    unfold LineString. now rewrite (as_coords_tuple _ Hwf).
  - cbn [geo_interface]. rewrite shape_interface_dict.
    cbn [dict_get String.eqb Ascii.eqb Bool.eqb].
    rewrite (polygon_tuple_empty shell holes Hwf).
    destruct (nonempty shell || nonempty holes) eqn:E; cbn [negb].
    + change (Polygon (Some (coords_tuple shell))
                (Some (PyTuple (map coords_tuple holes)))
              = Ok (GPolygon shell holes)).
      unfold wf_polygon in Hwf. apply andb_prop in Hwf as [Hs Hh].
      unfold Polygon, as_parts. rewrite (as_ring_tuple shell Hs).
      cbn [bind as_sequence]. now rewrite (as_holes_tuples holes Hh).
    + destruct shell; [destruct holes|]; try discriminate. reflexivity.
  - cbn [geo_interface]. rewrite shape_interface_dict.
    cbn [dict_get String.eqb Ascii.eqb Bool.eqb].
    rewrite (coords_tuple_empty ps Hwf).
    destruct ps as [|c ps]; [reflexivity|].
    change (MultiPoint (Some (coords_tuple (c :: ps)))
            = Ok (GMultiPoint (c :: ps))).
    unfold MultiPoint. now rewrite (as_coords_tuple _ Hwf).
  - cbn [geo_interface]. rewrite shape_interface_dict.
    cbn [dict_get String.eqb Ascii.eqb Bool.eqb].
    rewrite (proj1 (tuple_of_parts_empty coords_tuple ls
                      (fun l Hl => part_tuple_not_empty l
                         (proj1 (forallb_forall _ ls) Hwf l Hl)))).
    destruct ls as [|l ls]; [reflexivity|].
    change (MultiLineString (Some (PyTuple (map coords_tuple (l :: ls))))
            = Ok (GMultiLineString (l :: ls))).
    unfold MultiLineString, as_parts. cbn [bind as_sequence].
    now rewrite (as_parts_tuples as_coords coords_tuple (forallb wf_coord)
                   (l :: ls) as_coords_tuple Hwf).
  - cbn [geo_interface]. rewrite shape_interface_dict.
    cbn [dict_get String.eqb Ascii.eqb Bool.eqb].
    assert (Hne : forall p, In p polys ->
              _is_coordinates_empty (polygon_tuple (fst p) (snd p)) = false).
    { intros p Hp. rewrite forallb_forall in Hwf.
      destruct (andb_prop _ _ (Hwf p Hp)) as [Hpoly Hn].
      now rewrite (polygon_tuple_empty _ _ Hpoly), Hn. }
    rewrite (proj2 (tuple_of_parts_empty _ polys Hne)).
    destruct polys as [|p polys]; [reflexivity|].
    change (MultiPolygon
              (Some (PyList (map (fun p => polygon_tuple (fst p) (snd p))
                               (p :: polys))))
            = Ok (GMultiPolygon (p :: polys))).
    unfold MultiPolygon. cbn [bind as_sequence].
    now rewrite (mapM_inverse as_geojson_polygon _ _ (p :: polys)
                   as_geojson_polygon_tuple Hwf).
  - cbn [geo_interface]. rewrite shape_interface_dict.
    change (geoms <- mapM shape (map geo_interface gs) ;;
            GeometryCollection geoms = Ok (GGeometryCollection gs)).
    assert (E : mapM shape (map geo_interface gs) = Ok gs).
    { induction IH as [|g gs Hg _ IHgs]; [reflexivity|].
      cbn [forallb] in Hwf. apply andb_prop in Hwf as [Hwg Hwgs].
      cbn [map mapM]. now rewrite (Hg Hwg), (IHgs Hwgs). }
    now rewrite E.
Qed.

(** The well-formed geometries are those [shape] returns. *)
Lemma well_formed_iff_shape (g : geometry) :
  well_formed g = true <-> exists context : pyval, shape context = Ok g.
Proof.
  split.
  - intros H. exists (geo_interface g). now apply shape_geo_interface.
  - intros [context H]. now apply (shape_well_formed context).
Qed.

(** ** The properties of the specification *)

(** The rules of [_is_coordinates_empty] on the values without arrays of
    dimension zero: [None] is empty; a zero-length sequence is empty; a
    sequence of one or more items is empty if and only if every item is
    empty; a value that is neither [None] nor a sequence is not empty.  So
    [[]] and [[[], []]] are empty and [[[0, 1]]] is not. *)
Theorem is_coordinates_empty_rules :
  _is_coordinates_empty PyNone = true
  /\ (forall v : pyval, sequence_items v = Some [] ->
        _is_coordinates_empty v = true)
  /\ (forall (v : pyval) (l : list pyval),
        sequence_items v = Some l -> l <> [] ->
        (_is_coordinates_empty v = true
         <-> forall x : pyval, In x l -> _is_coordinates_empty x = true))
  /\ (forall v : pyval, v <> PyNone -> sequence_items v = None ->
        _is_coordinates_empty v = false)
  /\ _is_coordinates_empty (PyList []) = true
  /\ _is_coordinates_empty (PyList [PyList []; PyList []]) = true
  /\ _is_coordinates_empty (PyList [PyList [PyInt 0; PyInt 1]]) = false.
Proof.
  assert (Hseq : forall (v : pyval) (l : list pyval),
             sequence_items v = Some l ->
             _is_coordinates_empty v = forallb _is_coordinates_empty l).
  { intros v l H.
    destruct v; simpl in H; try discriminate.
    - injection H as <-. now destruct l0.
    - injection H as <-. now destruct l0.
    - simpl. destruct _has_numpy; [|discriminate].
      injection H as <-. now destruct l0. }
  repeat split; try reflexivity.
  - intros v H. now rewrite (Hseq v [] H).
  - rewrite (Hseq v l H), forallb_forall. auto.
  - rewrite (Hseq v l H), forallb_forall. auto.
  - intros v Hn H.
    destruct v; simpl in *; try reflexivity; try discriminate.
    + contradiction.
    + now destruct _has_numpy.
Qed.





(** C10. Every value other than [None] that is not a list, a tuple or a
    numpy array is classified as not empty, an empty string and an empty
    dict among them; with such a value under [coordinates], [shape] does not
    return the empty geometry of the kind but goes on to the branch of the
    type. *)
Theorem non_sequence_is_not_empty :
  (forall v : pyval, v <> PyNone -> is_list_tuple_or_array v = false ->
     _is_coordinates_empty v = false)
  /\ _is_coordinates_empty (PyStr "") = false
  /\ _is_coordinates_empty (PyDict []) = false
  /\ (forall (d : list (string * pyval)) (s : string) (v : pyval),
        dict_get "type" d = Some (PyStr s) ->
        dict_get "coordinates" d = Some v ->
        v <> PyNone -> is_list_tuple_or_array v = false ->
        shape (PyDict d) = shape_by_type shape (lower s) d).
Proof.
  assert (H : forall v : pyval, v <> PyNone ->
            is_list_tuple_or_array v = false ->
            _is_coordinates_empty v = false).
  { intros v Hn Hs. destruct v; simpl in *;
      try reflexivity; try discriminate; contradiction. }
  repeat split; try reflexivity; [exact H|].
  intros d s v Ht Hc Hn Hs.
  rewrite (shape_dict d s Ht), coordinates_given_empty_spec, Hc.
  now rewrite (H v Hn Hs).
Qed.

(** C9. On a mapping without a [type] key, [shape] fails with the
    [AttributeError] of [None.lower], whether the mapping is given itself or
    through an object's [__geo_interface__]: no geometry is returned and the
    error is not the [ValueError] of an unknown type. *)
Theorem shape_without_type (d : list (string * pyval)) :
  dict_get "type" d = None ->
  shape (PyDict d) = Err (AttributeError "NoneType" "lower")
  /\ shape (PyObject (PyDict d)) = Err (AttributeError "NoneType" "lower")
  /\ (forall g : geometry, shape (PyDict d) <> Ok g)
  /\ (forall msg : string, shape (PyDict d) <> Err (ValueError msg)).
Proof.
  intros H.
  assert (E : shape (PyDict d) = Err (AttributeError "NoneType" "lower")).
  { simpl. unfold dict_get_default. now rewrite H. }
  rewrite shape_object_dict, E. repeat split; intros; discriminate.
Qed.

(** C2. When the mapping has a [coordinates] key whose value is empty for
    [_is_coordinates_empty], [shape] returns what
    [_empty_shape_for_no_coordinates] returns on the lower-cased [type],
    whatever the type and the rest of the mapping. *)
Theorem shape_empty_coordinates (d : list (string * pyval)) (s : string)
    (c : pyval) :
  dict_get "type" d = Some (PyStr s) ->
  dict_get "coordinates" d = Some c ->
  _is_coordinates_empty c = true ->
  shape (PyDict d) = _empty_shape_for_no_coordinates (lower s)
  /\ shape (PyObject (PyDict d)) = _empty_shape_for_no_coordinates (lower s).
Proof.
  intros Ht Hc He.
  rewrite shape_object_dict, (shape_dict d s Ht).
  rewrite coordinates_given_empty_spec, Hc, He. split; reflexivity.
Qed.

(** C4. For a string [s] that in lower case is none of the seven recognised
    kind names, [_empty_shape_for_no_coordinates(s)] raises [ValueError]
    with the message ["Unknown geometry type: " + s], and [shape] on a
    mapping of type [s] with coordinates that are not empty raises
    [ValueError] with the message ["Unknown geometry type: " + s.lower()]. *)
Theorem unknown_geometry_type_fails (s : string) :
  ~ In (lower s) recognized_kinds ->
  _empty_shape_for_no_coordinates s
  = Err (ValueError (unknown_geometry_type s))
  /\ contains (unknown_geometry_type s) s
  /\ (forall (d : list (string * pyval)) (c : pyval),
        dict_get "type" d = Some (PyStr s) ->
        dict_get "coordinates" d = Some c ->
        _is_coordinates_empty c = false ->
        shape (PyDict d)
        = Err (ValueError (unknown_geometry_type (lower s))))
  /\ contains (unknown_geometry_type (lower s)) (lower s).
Proof.
  intros H. repeat split.
  - apply empty_shape_unknown. intros Hin. apply H.
    unfold recognized_kinds. apply in_or_app. left.
    now rewrite (coordinate_kinds_lower s Hin).
  - apply contains_suffix.
  - intros d c Ht Hc He.
    rewrite (shape_dict d s Ht), coordinates_given_empty_spec, Hc, He.
    now apply shape_by_type_unknown.
  - apply contains_suffix.
Qed.

(** C6. For any four bounds, [box] calls [Polygon] on the ring
    [(maxx,miny), (maxx,maxy), (minx,maxy), (minx,miny)] when [ccw] is true
    or left to its default, and on the reverse of that ring when [ccw] is
    false; the bounds are not compared with each other.  [box(0,0,2,1)] has
    the ring [(2,0),(2,1),(0,1),(0,0)] and [box(0,0,2,1,ccw=False)] its
    reverse. *)
Theorem box_ring (minx miny maxx maxy : pyval) :
  box minx miny maxx maxy (Some true)
  = Polygon (Some (PyList [PyTuple [maxx; miny]; PyTuple [maxx; maxy];
                           PyTuple [minx; maxy]; PyTuple [minx; miny]])) None
  /\ box minx miny maxx maxy None = box minx miny maxx maxy (Some true)
  /\ box minx miny maxx maxy (Some false)
     = Polygon (Some (PyList (rev [PyTuple [maxx; miny]; PyTuple [maxx; maxy];
                                   PyTuple [minx; maxy]; PyTuple [minx; miny]])))
         None
  /\ box (PyInt 0) (PyInt 0) (PyInt 2) (PyInt 1) (Some true)
     = Polygon (Some (PyList [PyTuple [PyInt 2; PyInt 0];
                              PyTuple [PyInt 2; PyInt 1];
                              PyTuple [PyInt 0; PyInt 1];
                              PyTuple [PyInt 0; PyInt 0]])) None
  /\ box (PyInt 0) (PyInt 0) (PyInt 2) (PyInt 1) (Some false)
     = Polygon (Some (PyList [PyTuple [PyInt 0; PyInt 0];
                              PyTuple [PyInt 0; PyInt 1];
                              PyTuple [PyInt 2; PyInt 1];
                              PyTuple [PyInt 2; PyInt 0]])) None.
Proof. repeat split. Qed.

(** C7. On a mapping whose lower-cased type is [geometrycollection], and
    whose [coordinates], if there are any, are not empty, [shape] applies
    itself to every item of [geometries] in turn, of the empty list when the
    key is absent, and returns [GeometryCollection] of the results. *)
Theorem shape_geometrycollection (d : list (string * pyval)) (s : string) :
  dict_get "type" d = Some (PyStr s) ->
  lower s = "geometrycollection" ->
  coordinates_given_empty d = false ->
  shape (PyDict d)
  = (items <- py_iter (dict_get_default "geometries" (PyList []) d) ;;
     geoms <- mapM shape items ;;
     GeometryCollection geoms).
Proof.
  intros Ht Hl He.
  rewrite (shape_dict d s Ht), He, Hl.
  unfold shape_by_type. simpl.
  rewrite dict_get_with_spec. unfold dict_get_default.
  destruct (dict_get "geometries" d) as [v|]; [|reflexivity].
  rewrite for_each_shape.
  destruct (py_iter v) as [items|e]; simpl; [|reflexivity].
  destruct (mapM shape items); reflexivity.
Qed.

(** C1, as the code has it. For each of the six kind names with a
    [coordinates] member (point, linestring, polygon, multipoint,
    multilinestring, multipolygon), [_empty_shape_for_no_coordinates]
    returns a geometry of that kind that carries no coordinate. *)
Theorem empty_shape_for_coordinate_kinds (k : string) :
  In k coordinate_kinds ->
  exists g : geometry,
    _empty_shape_for_no_coordinates k = Ok g
    /\ coords_of g = []
    /\ lower (geom_type g) = k.
Proof.
  unfold coordinate_kinds. simpl.
  intros [<-|[<-|[<-|[<-|[<-|[<-|[]]]]]]];
    eexists; (split; [reflexivity | split; reflexivity]).
Qed.

(** C5, as the code has it. [shape] matches the type name whatever its case:
    two mappings that differ only in the case of the letters of [type] have
    the same result, given themselves or through an object.
    [_empty_shape_for_no_coordinates] compares the name as it is, so fails on
    every name that is not in lower case. *)
Theorem shape_case_insensitive (d : list (string * pyval)) (s s' : string) :
  lower s' = lower s ->
  shape (PyDict (dict_set "type" (PyStr s') d))
  = shape (PyDict (dict_set "type" (PyStr s) d))
  /\ shape (PyObject (PyDict (dict_set "type" (PyStr s') d)))
     = shape (PyObject (PyDict (dict_set "type" (PyStr s) d)))
  /\ (forall t : string, lower t <> t ->
        _empty_shape_for_no_coordinates t
        = Err (ValueError (unknown_geometry_type t))).
Proof.
  intros Hl.
  assert (E : shape (PyDict (dict_set "type" (PyStr s') d))
              = shape (PyDict (dict_set "type" (PyStr s) d))).
  { apply (shape_ext _ _ s' s); try apply dict_get_set_same; try exact Hl.
    - now rewrite !dict_get_set_other by discriminate.
    - now rewrite !dict_get_set_other by discriminate. }
  rewrite !shape_object_dict. repeat split; try exact E.
  intros t Ht. apply empty_shape_unknown.
  intros Hin. apply Ht. now apply coordinate_kinds_lower.
Qed.

(** C8. Round trip: for a geometry of any of the seven kinds that the classes
    construct and that is not empty, [shape(mapping(g))] returns [g]. *)
Theorem shape_mapping_roundtrip (g : geometry) :
  well_formed g = true ->
  is_empty g = false ->
  (ob <- mapping (geometry_object g) ;; shape ob) = Ok g.
Proof.
  intros Hwf _. exact (shape_geo_interface g Hwf).
Qed.

(** ** Further properties of the code *)

Lemma forallb_flat_map {A B : Type} (p : B -> bool) (f : A -> list B)
    (l : list A) :
  forallb p (flat_map f l) = forallb (fun a => forallb p (f a)) l.
Proof.
  induction l as [|a l IH]; simpl; [reflexivity|].
  now rewrite forallb_app, IH.
Qed.

Lemma forallb_ext_Forall {A : Type} (p q : A -> bool) (l : list A) :
  Forall (fun a => p a = q a) l -> forallb p l = forallb q l.
Proof.
  induction 1 as [|a l Ha _ IH]; simpl; [reflexivity|]. now rewrite Ha, IH.
Qed.

Lemma is_coordinates_empty_leaves (v : pyval) :
  _is_coordinates_empty v
  = forallb (fun x => match x with PyNone => true | _ => false end) (leaves v).
Proof.
  assert (Hseq : forall l : list pyval,
            Forall (fun x => _is_coordinates_empty x
                             = forallb (fun y => match y with
                                                 | PyNone => true
                                                 | _ => false
                                                 end) (leaves x)) l ->
            match l with
            | [] => true
            | _ :: _ => forallb _is_coordinates_empty l
            end
            = forallb (fun y => match y with PyNone => true | _ => false end)
                (flat_map leaves l)).
  { intros l Hl. rewrite forallb_flat_map, <- (forallb_ext_Forall _ _ l Hl).
    now destruct l. }
  induction v as [| | | |l IH|l IH|l IH|d IH|gi IH] using pyval_induction;
    try reflexivity.
  - exact (Hseq l IH).
  - exact (Hseq l IH).
  - simpl. destruct _has_numpy; [exact (Hseq l IH) | reflexivity].
Qed.

(** X1. Coordinates are empty exactly when nothing but [None] is found in
    them once the nested lists, tuples and arrays are opened: one number, one
    string, one mapping or one object at any depth makes them not empty, and
    nothing else does. *)
Theorem is_coordinates_empty_iff_no_leaf (v : pyval) :
  _is_coordinates_empty v = true
  <-> forall x : pyval, In x (leaves v) -> x = PyNone.
Proof.
  rewrite is_coordinates_empty_leaves, forallb_forall.
  split; intros H x Hx.
  - specialize (H x Hx). now destruct x.
  - now rewrite (H x Hx).
Qed.

(** X2. [shape] reads three members of the mapping and no other: two
    mappings with the same [type], [coordinates] and [geometries] have the
    same result, whatever else they hold and in whatever order. *)
Theorem shape_reads_three_members (d1 d2 : list (string * pyval)) :
  dict_get "type" d1 = dict_get "type" d2 ->
  dict_get "coordinates" d1 = dict_get "coordinates" d2 ->
  dict_get "geometries" d1 = dict_get "geometries" d2 ->
  shape (PyDict d1) = shape (PyDict d2).
Proof.
  intros Ht Hc Hg. rewrite !shape_unfold. cbn [geo_interface_or_self].
  unfold dict_get_default. rewrite Ht.
  destruct (dict_get "type" d2) as [[]|]; try reflexivity.
  rewrite !coordinates_given_empty_spec, Hc.
  now rewrite (shape_by_type_ext shape (lower s) d1 d2 Hc Hg).
Qed.

(** X3. A mapping of one of the six kinds with coordinates (the type in any
    case) that has no [coordinates] key makes [shape] raise
    [KeyError('coordinates')]. *)
Theorem shape_missing_coordinates (d : list (string * pyval)) (s : string) :
  dict_get "type" d = Some (PyStr s) ->
  In (lower s) coordinate_kinds ->
  dict_get "coordinates" d = None ->
  shape (PyDict d) = Err (KeyError (PyStr "coordinates")).
Proof.
  intros Ht Hk Hc.
  rewrite (shape_dict d s Ht), coordinates_given_empty_spec, Hc.
  unfold shape_by_type, dict_getitem. rewrite Hc.
  unfold coordinate_kinds in Hk. simpl in Hk.
  destruct Hk as [<-|[<-|[<-|[<-|[<-|[<-|[]]]]]]]; reflexivity.
Qed.

(** X4. A mapping whose type is [geometrycollection] (in any case) and that
    carries a [coordinates] key with an empty value is refused with
    [ValueError('Unknown geometry type: geometrycollection')], whatever its
    [geometries]. *)
Theorem shape_collection_empty_coordinates (d : list (string * pyval))
    (s : string) (c : pyval) :
  dict_get "type" d = Some (PyStr s) ->
  lower s = "geometrycollection" ->
  dict_get "coordinates" d = Some c ->
  _is_coordinates_empty c = true ->
  shape (PyDict d)
  = Err (ValueError "Unknown geometry type: geometrycollection").
Proof.
  intros Ht Hl Hc He.
  rewrite (shape_dict d s Ht), coordinates_given_empty_spec, Hc, He, Hl.
  reflexivity.
Qed.


Lemma shape_by_type_collection (d : list (string * pyval)) :
  shape_by_type shape "geometrycollection" d
  = (items <- py_iter (dict_get_default "geometries" (PyList []) d) ;;
     geoms <- mapM shape items ;;
     GeometryCollection geoms).
Proof.
  unfold shape_by_type. simpl.
  rewrite dict_get_with_spec. unfold dict_get_default.
  destruct (dict_get "geometries" d) as [v|]; [|reflexivity].
  rewrite for_each_shape.
  destruct (py_iter v) as [items|e]; simpl; [|reflexivity].
  destruct (mapM shape items); reflexivity.
Qed.

Lemma mapM_first_error {A B : Type} (f : A -> result B)
    (before after : list A) (x : A) (e : exn) :
  Forall (fun y => exists b, f y = Ok b) before ->
  f x = Err e ->
  mapM f (before ++ x :: after) = Err e.
Proof.
  intros Hb Hx. induction Hb as [|y before [b Hy] _ IH]; simpl.
  - now rewrite Hx.
  - now rewrite Hy, IH.
Qed.

(** X6. A collection is built of all its members or not at all: when the
    members before one are shaped and that one raises, [shape] of the
    collection raises the same exception, whatever comes after. *)
Theorem shape_collection_member_fails (d : list (string * pyval)) (s : string)
    (before after : list pyval) (x : pyval) (e : exn) :
  dict_get "type" d = Some (PyStr s) ->
  lower s = "geometrycollection" ->
  coordinates_given_empty d = false ->
  py_iter (dict_get_default "geometries" (PyList []) d)
  = Ok (before ++ x :: after) ->
  Forall (fun y => exists g, shape y = Ok g) before ->
  shape x = Err e ->
  shape (PyDict d) = Err e.
Proof.
  intros Ht Hl He Hi Hb Hx.
  rewrite (shape_dict d s Ht), He, Hl, shape_by_type_collection, Hi.
  cbn [bind]. now rewrite (mapM_first_error shape before after x e Hb Hx).
Qed.

(** X7. The default of [ob.get("geometries", [])] stands in for an absent
    key only: a [geometries] member that cannot be iterated ([None], a
    number, an object) makes [shape] raise the [TypeError] of the
    iteration. *)
Theorem shape_collection_not_iterable (d : list (string * pyval)) (s : string)
    (v : pyval) (e : exn) :
  dict_get "type" d = Some (PyStr s) ->
  lower s = "geometrycollection" ->
  coordinates_given_empty d = false ->
  dict_get "geometries" d = Some v ->
  py_iter v = Err e ->
  shape (PyDict d) = Err TypeError.
Proof.
  intros Ht Hl He Hg Hi.
  rewrite (shape_dict d s Ht), He, Hl, shape_by_type_collection.
  unfold dict_get_default. rewrite Hg.
  destruct v; simpl in Hi; try discriminate; reflexivity.
Qed.

Ltac kind_of H :=
  match type of H with
  | ?f ?a = Ok _ =>
      unfold f in H; try destruct a; bind_inv H; injection H as <-; reflexivity
  end.

Lemma Point_kind (a : option pyval) (g : geometry) :
  Point a = Ok g -> geom_type g = "Point".
Proof. intros H. kind_of H. Qed.

Lemma LineString_kind (a : option pyval) (g : geometry) :
  LineString a = Ok g -> geom_type g = "LineString".
Proof. intros H. kind_of H. Qed.

Lemma Polygon_kind (shell holes : option pyval) (g : geometry) :
  Polygon shell holes = Ok g -> geom_type g = "Polygon".
Proof.
  unfold Polygon. intros H. bind_inv H. now injection H as <-.
Qed.

Lemma MultiPoint_kind (a : option pyval) (g : geometry) :
  MultiPoint a = Ok g -> geom_type g = "MultiPoint".
Proof. intros H. kind_of H. Qed.

Lemma MultiLineString_kind (a : option pyval) (g : geometry) :
  MultiLineString a = Ok g -> geom_type g = "MultiLineString".
Proof. intros H. kind_of H. Qed.

Lemma MultiPolygon_kind (a : option pyval) (g : geometry) :
  MultiPolygon a = Ok g -> geom_type g = "MultiPolygon".
Proof. intros H. kind_of H. Qed.

Ltac kind_by_class H :=
  first
    [ rewrite (Point_kind _ _ H) | rewrite (LineString_kind _ _ H)
    | rewrite (Polygon_kind _ _ _ H) | rewrite (MultiPoint_kind _ _ H)
    | rewrite (MultiLineString_kind _ _ H)
    | rewrite (MultiPolygon_kind _ _ H) ];
  reflexivity.

Lemma empty_shape_kind (gt : string) (g : geometry) :
  _empty_shape_for_no_coordinates gt = Ok g -> lower (geom_type g) = gt.
Proof.
  unfold _empty_shape_for_no_coordinates.
  repeat match goal with
  | |- context [?a =? ?b] => destruct (String.eqb_spec a b) as [->|_]
  end; intros H; try discriminate H; kind_by_class H.
Qed.

Lemma shape_by_type_kind (rec : pyval -> result geometry) (gt : string)
    (d : list (string * pyval)) (g : geometry) :
  shape_by_type rec gt d = Ok g -> lower (geom_type g) = gt.
Proof.
  unfold shape_by_type.
  repeat match goal with
  | |- context [?a =? ?b] => destruct (String.eqb_spec a b) as [->|_]
  end; intros H; try discriminate H; bind_inv H; try kind_by_class H.
  now injection H as <-.
Qed.

(** X8. The geometry [shape] returns is of the kind the [type] member
    names, the case of its letters apart: a point for ["Point"] or
    ["POINT"], never a geometry of another kind. *)
Theorem shape_result_kind (d : list (string * pyval)) (s : string)
    (g : geometry) :
  dict_get "type" d = Some (PyStr s) ->
  shape (PyDict d) = Ok g ->
  lower (geom_type g) = lower s.
Proof.
  intros Ht. rewrite (shape_dict d s Ht).
  destruct (coordinates_given_empty d).
  - apply empty_shape_kind.
  - apply shape_by_type_kind.
Qed.

Lemma shape_geometry_object (g : geometry) :
  shape (geometry_object g) = shape (geo_interface g).
Proof. destruct g; reflexivity. Qed.

(** X9. The example of the docstring: a geometry got from [shape] that is
    not empty and has no empty member, given to [shape] again as an object
    with a [__geo_interface__], comes back equal. *)
Theorem shape_of_shaped (context : pyval) (g : geometry) :
  shape context = Ok g ->
  nowhere_empty g = true ->
  shape (geometry_object g) = Ok g.
Proof.
  intros H _. rewrite shape_geometry_object.
  apply shape_geo_interface. exact (shape_well_formed context g H).
Qed.

Lemma exact_float_as_float (v : pyval) (q : Q) :
  exact_float v = Some q -> as_float v = Ok q.
Proof.
  destruct v; cbn [exact_float as_float]; try discriminate.
  - destruct (Z.abs z <=? 2 ^ 53)%Z; [|discriminate].
    intros H. now injection H as <-.
  - intros H. now injection H as <-.
Qed.

(** X10. On four numbers that [float] reads exactly (floats, and ints of
    magnitude at most 2^53), in whatever order and equal or not, [box] does
    not fail: it returns a polygon without holes whose ring is the four
    corners in the order of [ccw], closed, and that polygon is read back
    unchanged by [shape(mapping(...))]. *)
Theorem box_of_numbers (minx miny maxx maxy : pyval) (ccw : option bool)
    (x0 y0 x1 y1 : Q) :
  exact_float minx = Some x0 -> exact_float miny = Some y0 ->
  exact_float maxx = Some x1 -> exact_float maxy = Some y1 ->
  exists g : geometry,
    box minx miny maxx maxy ccw = Ok g
    /\ g = GPolygon
             (close_ring
                (if match ccw with Some b => b | None => true end
                 then [[x1; y0]; [x1; y1]; [x0; y1]; [x0; y0]]
                 else [[x0; y0]; [x0; y1]; [x1; y1]; [x1; y0]])) []
    /\ (ob <- mapping (geometry_object g) ;; shape ob) = Ok g.
Proof.
  intros Hx0 Hy0 Hx1 Hy1.
  apply exact_float_as_float in Hx0, Hy0, Hx1, Hy1.
  eexists. split; [|split; [reflexivity|]].
  - unfold box, Polygon, as_ring, as_coords, as_coord.
    destruct ccw as [[|]|]; cbn [negb rev app as_sequence bind mapM];
      rewrite Hx0, Hy0, Hx1, Hy1; reflexivity.
  - cbn [mapping geometry_object bind]. apply shape_geo_interface.
    cbn [well_formed]. unfold wf_polygon. rewrite close_ring_wf; [reflexivity|].
    now destruct ccw as [[|]|].
Qed.

(** X12. [_empty_shape_for_no_coordinates] returns a geometry for the six
    lower-case names point, linestring, polygon, multipoint, multilinestring
    and multipolygon and for no other string, and what it returns carries no
    coordinate. *)
Theorem empty_shape_domain (geom_type : string) :
  ((exists g : geometry, _empty_shape_for_no_coordinates geom_type = Ok g)
   <-> In geom_type coordinate_kinds)
  /\ (forall g : geometry,
        _empty_shape_for_no_coordinates geom_type = Ok g -> is_empty g = true).
Proof.
  split; [split|].
  - intros [g H]. destruct (in_dec string_dec geom_type coordinate_kinds)
      as [Hin|Hout]; [exact Hin|].
    rewrite (empty_shape_unknown geom_type Hout) in H. discriminate H.
  - unfold coordinate_kinds. simpl.
    intros [<-|[<-|[<-|[<-|[<-|[<-|[]]]]]]]; eexists; reflexivity.
  - unfold _empty_shape_for_no_coordinates.
    repeat match goal with
    | |- context [?a =? ?b] => destruct (a =? b)
    end; intros g H; try discriminate H; cbn in H;
      injection H as <-; reflexivity.
Qed.

(** X13. [shape] returns a geometry only for a mapping, given itself or
    through [__geo_interface__], whose [type] is a string that in lower case
    is one of the seven names: on anything else it raises. *)
Theorem shape_succeeds_only_on_typed_mapping (context : pyval) (g : geometry) :
  shape context = Ok g ->
  exists (d : list (string * pyval)) (s : string),
    geo_interface_or_self context = PyDict d
    /\ dict_get "type" d = Some (PyStr s)
    /\ In (lower s) recognized_kinds.
Proof.
  rewrite shape_unfold.
  destruct (geo_interface_or_self context) as [| | | | | | |d|];
    try discriminate.
  unfold dict_get_default.
  destruct (dict_get "type" d) as [[| | |s| | | | |]|] eqn:Et; try discriminate.
  intros H. exists d, s. split; [reflexivity|]. split; [exact Et|].
  destruct (in_dec string_dec (lower s) recognized_kinds) as [Hin|Hout];
    [exact Hin|].
  exfalso. destruct (coordinates_given_empty d).
  - rewrite empty_shape_unknown in H; [discriminate H|].
    intros Hin. apply Hout. unfold recognized_kinds.
    apply in_or_app. now left.
  - rewrite (shape_by_type_unknown shape (lower s) d Hout) in H.
    discriminate H.
Qed.

End Geo.

(** ** With and without numpy *)

Lemma mapM_ext_Forall {A B : Type} (f g : A -> result B) (l : list A) :
  Forall (fun a => f a = g a) l -> mapM f l = mapM g l.
Proof.
  induction 1 as [|a l Ha _ IH]; simpl; [reflexivity|]. now rewrite Ha, IH.
Qed.

Lemma shape_by_type_members (rec1 rec2 : pyval -> result geometry)
    (geom_type : string) (d : list (string * pyval)) :
  (forall v, dict_get "geometries" d = Some v ->
     for_each rec1 shape_of_str v = for_each rec2 shape_of_str v) ->
  shape_by_type rec1 geom_type d = shape_by_type rec2 geom_type d.
Proof.
  intros H. unfold shape_by_type. rewrite !dict_get_with_spec.
  destruct (dict_get "geometries" d) as [v|]; [|reflexivity].
  now rewrite (H v eq_refl).
Qed.

Lemma array_free_same (np1 np2 : bool) (v : pyval) :
  array_free v = true ->
  _is_coordinates_empty np1 v = _is_coordinates_empty np2 v
  /\ shape np1 v = shape np2 v
  /\ for_each (shape np1) shape_of_str v = for_each (shape np2) shape_of_str v.
Proof.
  induction v as [| | | |l IH|l IH|l IH|d IH|gi IH] using pyval_induction;
    intros Hf; try (repeat split; reflexivity); try discriminate Hf.
  - cbn [array_free] in Hf. rewrite forallb_forall in Hf.
    rewrite Forall_forall in IH.
    assert (He : forallb (_is_coordinates_empty np1) l
                 = forallb (_is_coordinates_empty np2) l).
    { apply forallb_ext_Forall, Forall_forall. intros x Hx.
      exact (proj1 (IH x Hx (Hf x Hx))). }
    repeat split.
    + simpl. now rewrite He.
    + simpl. apply mapM_ext_Forall, Forall_forall. intros x Hx.
      exact (proj1 (proj2 (IH x Hx (Hf x Hx)))).
  - cbn [array_free] in Hf. rewrite forallb_forall in Hf.
    rewrite Forall_forall in IH.
    assert (He : forallb (_is_coordinates_empty np1) l
                 = forallb (_is_coordinates_empty np2) l).
    { apply forallb_ext_Forall, Forall_forall. intros x Hx.
      exact (proj1 (IH x Hx (Hf x Hx))). }
    repeat split.
    + simpl. now rewrite He.
    + simpl. apply mapM_ext_Forall, Forall_forall. intros x Hx.
      exact (proj1 (proj2 (IH x Hx (Hf x Hx)))).
  - cbn [array_free] in Hf. rewrite forallb_forall in Hf.
    rewrite Forall_forall in IH.
    assert (Hv : forall key v, dict_get key d = Some v ->
              _is_coordinates_empty np1 v = _is_coordinates_empty np2 v
              /\ for_each (shape np1) shape_of_str v
                 = for_each (shape np2) shape_of_str v).
    { intros key v Hv. apply dict_get_In in Hv as [k Hk].
      destruct (IH _ Hk (Hf _ Hk)) as (H1 & _ & H3). now split. }
    repeat split.
    rewrite !shape_unfold. cbn [geo_interface_or_self].
    destruct (dict_get_default "type" PyNone d); try reflexivity.
    rewrite !coordinates_given_empty_spec.
    rewrite (shape_by_type_members (shape np1) (shape np2) (lower s) d
               (fun v Hg => proj2 (Hv "geometries" v Hg))).
    destruct (dict_get "coordinates" d) as [c|] eqn:Ec; [|reflexivity].
    now rewrite (proj1 (Hv "coordinates" c Ec)).
  - cbn [array_free] in Hf. destruct (IH Hf) as (_ & H2 & _).
    repeat split.
    rewrite !shape_unfold. cbn [geo_interface_or_self].
    destruct gi; try reflexivity.
    rewrite !shape_unfold in H2. exact H2.
Qed.

(** X11. numpy is optional and changes nothing for input without arrays: on
    a value in which no numpy array occurs, [_is_coordinates_empty] and
    [shape] return the same whether or not numpy was imported. *)
Theorem numpy_changes_nothing_without_arrays (np1 np2 : bool) (v : pyval) :
  array_free v = true ->
  _is_coordinates_empty np1 v = _is_coordinates_empty np2 v
  /\ shape np1 v = shape np2 v.
Proof.
  intros H. destruct (array_free_same np1 np2 v H) as (H1 & H2 & _).
  now split.
Qed.

(** ** The statements on concrete inputs *)


Lemma empty_shape_for_coordinate_kinds_multipolygon :
  In "multipolygon" coordinate_kinds
  /\ exists g : geometry,
       _empty_shape_for_no_coordinates "multipolygon" = Ok g
       /\ coords_of g = []
       /\ lower (geom_type g) = "multipolygon".
Proof.
  assert (H : In "multipolygon" coordinate_kinds) by (simpl; tauto).
  exact (conj H (empty_shape_for_coordinate_kinds "multipolygon" H)).
Defined.

(** [geometrycollection] is one of the seven names, and
    [_empty_shape_for_no_coordinates] raises on it. *)
Lemma empty_shape_geometrycollection_raises :
  In "geometrycollection" recognized_kinds
  /\ _empty_shape_for_no_coordinates "geometrycollection"
     = Err (ValueError "Unknown geometry type: geometrycollection").
Proof. split; [simpl; tauto | reflexivity]. Qed.

Lemma shape_empty_coordinates_multipoint :
  _is_coordinates_empty true (PyList [PyList []]) = true
  /\ shape true (PyDict [("type", PyStr "MultiPoint");
                         ("coordinates", PyList [PyList []])])
     = Ok (GMultiPoint [])
  /\ shape true (PyObject (PyDict [("type", PyStr "MultiPoint");
                                   ("coordinates", PyList [PyList []])]))
     = Ok (GMultiPoint []).
Proof.
  split; [reflexivity|].
  exact (shape_empty_coordinates true
           [("type", PyStr "MultiPoint"); ("coordinates", PyList [PyList []])]
           "MultiPoint" (PyList [PyList []]) eq_refl eq_refl eq_refl).
Defined.

Lemma unknown_geometry_type_fails_circle :
  ~ In (lower "Circle") recognized_kinds
  /\ _empty_shape_for_no_coordinates "Circle"
     = Err (ValueError "Unknown geometry type: Circle")
  /\ shape false (PyDict [("type", PyStr "Circle");
                          ("coordinates", PyList [PyInt 0; PyInt 1])])
     = Err (ValueError "Unknown geometry type: circle").
Proof.
  assert (H : ~ In (lower "Circle") recognized_kinds).
  { simpl. intros H. decompose [or] H; try discriminate; assumption. }
  destruct (unknown_geometry_type_fails false "Circle" H) as (H1 & _ & H3 & _).
  split; [exact H|]. split; [exact H1|].
  exact (H3 [("type", PyStr "Circle");
             ("coordinates", PyList [PyInt 0; PyInt 1])]
            (PyList [PyInt 0; PyInt 1]) eq_refl eq_refl eq_refl).
Defined.

Lemma shape_case_insensitive_point :
  lower "POINT" = lower "Point"
  /\ shape true (PyDict [("type", PyStr "POINT");
                         ("coordinates", PyList [PyInt 0; PyInt 1])])
     = shape true (PyDict [("type", PyStr "Point");
                           ("coordinates", PyList [PyInt 0; PyInt 1])]).
Proof.
  split; [reflexivity|].
  exact (proj1 (shape_case_insensitive true
                  [("type", PyStr "point");
                   ("coordinates", PyList [PyInt 0; PyInt 1])]
                  "Point" "POINT" eq_refl)).
Defined.

(** ["POINT"] and ["point"] differ only in case, and
    [_empty_shape_for_no_coordinates] knows the second alone. *)
Lemma empty_shape_case_sensitive :
  lower "POINT" = lower "point"
  /\ _empty_shape_for_no_coordinates "point" = Ok (GPoint [])
  /\ _empty_shape_for_no_coordinates "POINT"
     = Err (ValueError "Unknown geometry type: POINT").
Proof. repeat split. Qed.

Lemma shape_geometrycollection_two_members :
  shape true
    (PyDict [("type", PyStr "GeometryCollection");
             ("geometries",
              PyList [PyDict [("type", PyStr "Point");
                              ("coordinates", PyList [PyInt 0; PyInt 1])];
                      PyDict [("type", PyStr "LineString");
                              ("coordinates", PyTuple [])]])])
  = Ok (GGeometryCollection [GPoint [0; 1]%Q; GLineString []]).
Proof.
  exact (shape_geometrycollection true
           [("type", PyStr "GeometryCollection");
            ("geometries",
             PyList [PyDict [("type", PyStr "Point");
                             ("coordinates", PyList [PyInt 0; PyInt 1])];
                     PyDict [("type", PyStr "LineString");
                             ("coordinates", PyTuple [])]])]
           "GeometryCollection" eq_refl eq_refl eq_refl).
Defined.

Lemma shape_without_type_coordinates_only :
  dict_get "type" [("coordinates", PyList [PyInt 0; PyInt 1])] = None
  /\ shape true (PyDict [("coordinates", PyList [PyInt 0; PyInt 1])])
     = Err (AttributeError "NoneType" "lower").
Proof.
  split; [reflexivity|].
  exact (proj1 (shape_without_type true
                  [("coordinates", PyList [PyInt 0; PyInt 1])] eq_refl)).
Defined.

Lemma shape_mapping_roundtrip_collection :
  (ob <- mapping
           (geometry_object
              (GGeometryCollection
                 [GPoint [1 # 2; 3]%Q;
                  GPolygon [[0; 0]; [0; 1]; [1; 1]; [0; 0]]%Q [];
                  GMultiPoint []])) ;;
   shape false ob)
  = Ok (GGeometryCollection
          [GPoint [1 # 2; 3]%Q;
           GPolygon [[0; 0]; [0; 1]; [1; 1]; [0; 0]]%Q [];
           GMultiPoint []]).
Proof.
  exact (shape_mapping_roundtrip false
           (GGeometryCollection
              [GPoint [1 # 2; 3]%Q;
               GPolygon [[0; 0]; [0; 1]; [1; 1]; [0; 0]]%Q [];
               GMultiPoint []])
           eq_refl eq_refl).
Defined.

Lemma shape_reads_three_members_bbox :
  shape true (PyDict [("bbox", PyList [PyInt 0; PyInt 1; PyInt 0; PyInt 1]);
                      ("type", PyStr "Point");
                      ("coordinates", PyList [PyInt 0; PyInt 1])])
  = shape true (PyDict [("coordinates", PyList [PyInt 0; PyInt 1]);
                        ("type", PyStr "Point")]).
Proof.
  exact (shape_reads_three_members true
           [("bbox", PyList [PyInt 0; PyInt 1; PyInt 0; PyInt 1]);
            ("type", PyStr "Point");
            ("coordinates", PyList [PyInt 0; PyInt 1])]
           [("coordinates", PyList [PyInt 0; PyInt 1]);
            ("type", PyStr "Point")]
           eq_refl eq_refl eq_refl).
Defined.

Lemma shape_missing_coordinates_polygon :
  In (lower "Polygon") coordinate_kinds
  /\ shape true (PyDict [("type", PyStr "Polygon")])
     = Err (KeyError (PyStr "coordinates")).
Proof.
  assert (H : In (lower "Polygon") coordinate_kinds) by (simpl; tauto).
  exact (conj H (shape_missing_coordinates true [("type", PyStr "Polygon")]
                   "Polygon" eq_refl H eq_refl)).
Defined.

Lemma shape_collection_empty_coordinates_with_members :
  shape true
    (PyDict [("type", PyStr "GeometryCollection");
             ("geometries",
              PyList [PyDict [("type", PyStr "Point");
                              ("coordinates", PyList [PyInt 0; PyInt 1])]]);
             ("coordinates", PyList [])])
  = Err (ValueError "Unknown geometry type: geometrycollection").
Proof.
  exact (shape_collection_empty_coordinates true
           [("type", PyStr "GeometryCollection");
            ("geometries",
             PyList [PyDict [("type", PyStr "Point");
                             ("coordinates", PyList [PyInt 0; PyInt 1])]]);
            ("coordinates", PyList [])]
           "GeometryCollection" (PyList []) eq_refl eq_refl eq_refl eq_refl).
Defined.


Lemma shape_collection_member_fails_second :
  shape true
    (PyDict [("type", PyStr "GeometryCollection");
             ("geometries",
              PyList [PyDict [("type", PyStr "Point");
                              ("coordinates", PyList [PyInt 0; PyInt 1])];
                      PyDict [("type", PyStr "Point")];
                      PyNone])])
  = Err (KeyError (PyStr "coordinates")).
Proof.
  refine (shape_collection_member_fails true
            [("type", PyStr "GeometryCollection");
             ("geometries",
              PyList [PyDict [("type", PyStr "Point");
                              ("coordinates", PyList [PyInt 0; PyInt 1])];
                      PyDict [("type", PyStr "Point")];
                      PyNone])]
            "GeometryCollection"
            [PyDict [("type", PyStr "Point");
                     ("coordinates", PyList [PyInt 0; PyInt 1])]]
            [PyNone]
            (PyDict [("type", PyStr "Point")])
            (KeyError (PyStr "coordinates"))
            eq_refl eq_refl eq_refl eq_refl _ eq_refl).
  constructor; [|constructor]. exists (GPoint [0; 1]%Q). reflexivity.
Defined.

Lemma shape_collection_not_iterable_none :
  shape true (PyDict [("type", PyStr "GeometryCollection");
                      ("geometries", PyNone)])
  = Err TypeError.
Proof.
  exact (shape_collection_not_iterable true
           [("type", PyStr "GeometryCollection"); ("geometries", PyNone)]
           "GeometryCollection" PyNone TypeError
           eq_refl eq_refl eq_refl eq_refl eq_refl).
Defined.

Lemma shape_result_kind_upper_case :
  shape true (PyDict [("type", PyStr "POINT");
                      ("coordinates", PyList [PyInt 0; PyInt 1])])
  = Ok (GPoint [0; 1]%Q)
  /\ lower (geom_type (GPoint [0; 1]%Q)) = lower "POINT".
Proof.
  split; [reflexivity|].
  exact (shape_result_kind true
           [("type", PyStr "POINT");
            ("coordinates", PyList [PyInt 0; PyInt 1])]
           "POINT" (GPoint [0; 1]%Q) eq_refl eq_refl).
Defined.

Lemma shape_of_shaped_point :
  shape true (PyDict [("type", PyStr "Point");
                      ("coordinates", PyList [PyInt 0; PyInt 1])])
  = Ok (GPoint [0; 1]%Q)
  /\ nowhere_empty (GPoint [0; 1]%Q) = true
  /\ shape true (geometry_object (GPoint [0; 1]%Q)) = Ok (GPoint [0; 1]%Q).
Proof.
  split; [reflexivity|]. split; [reflexivity|].
  exact (shape_of_shaped true
           (PyDict [("type", PyStr "Point");
                    ("coordinates", PyList [PyInt 0; PyInt 1])])
           (GPoint [0; 1]%Q) eq_refl eq_refl).
Defined.

Lemma box_of_numbers_inverted :
  exists g : geometry,
    box (PyInt 2) (PyInt 1) (PyInt 0) (PyFloat 0) (Some false) = Ok g
    /\ g = GPolygon [[2; 1]; [2; 0]; [0; 0]; [0; 1]; [2; 1]]%Q []
    /\ (ob <- mapping (geometry_object g) ;; shape true ob) = Ok g.
Proof.
  exact (box_of_numbers true (PyInt 2) (PyInt 1) (PyInt 0) (PyFloat 0)
           (Some false) 2%Q 1%Q 0%Q 0%Q eq_refl eq_refl eq_refl eq_refl).
Defined.

Lemma numpy_changes_nothing_without_arrays_polygon :
  array_free
    (PyDict [("type", PyStr "Polygon");
             ("coordinates",
              PyList [PyList [PyTuple [PyInt 0; PyInt 0];
                              PyTuple [PyInt 0; PyInt 1];
                              PyTuple [PyInt 1; PyInt 1]]])]) = true
  /\ shape true
       (PyDict [("type", PyStr "Polygon");
                ("coordinates",
                 PyList [PyList [PyTuple [PyInt 0; PyInt 0];
                                 PyTuple [PyInt 0; PyInt 1];
                                 PyTuple [PyInt 1; PyInt 1]]])])
     = shape false
         (PyDict [("type", PyStr "Polygon");
                  ("coordinates",
                   PyList [PyList [PyTuple [PyInt 0; PyInt 0];
                                   PyTuple [PyInt 0; PyInt 1];
                                   PyTuple [PyInt 1; PyInt 1]]])]).
Proof.
  split; [reflexivity|].
  exact (proj2 (numpy_changes_nothing_without_arrays true false
                  (PyDict [("type", PyStr "Polygon");
                           ("coordinates",
                            PyList [PyList [PyTuple [PyInt 0; PyInt 0];
                                            PyTuple [PyInt 0; PyInt 1];
                                            PyTuple [PyInt 1; PyInt 1]]])])
                  eq_refl)).
Defined.

Lemma shape_succeeds_only_on_typed_mapping_object :
  shape true (PyObject (PyDict [("type", PyStr "MultiPoint");
                                ("coordinates", PyList [])]))
  = Ok (GMultiPoint [])
  /\ exists (d : list (string * pyval)) (s : string),
       geo_interface_or_self
         (PyObject (PyDict [("type", PyStr "MultiPoint");
                            ("coordinates", PyList [])])) = PyDict d
       /\ dict_get "type" d = Some (PyStr s)
       /\ In (lower s) recognized_kinds.
Proof.
  split; [reflexivity|].
  exact (shape_succeeds_only_on_typed_mapping true
           (PyObject (PyDict [("type", PyStr "MultiPoint");
                              ("coordinates", PyList [])]))
           (GMultiPoint []) eq_refl).
Defined.
